(** * Weapon range templates and the deployable sheet

    A shallow embedding of [src/module/pixi/weapon-range-template.ts]
    (class [WeaponRangeTemplate]) and of the deployable actor sheet
    (class [LancerDeployableSheet]).

    JavaScript numbers are IEEE 754 binary64 values, so distances, angles and
    coordinates are primitive floats and every arithmetic operation below is
    the rounded one the program performs.  Grid type codes and millisecond
    timestamps are integers.  The ambient objects of the host ([canvas],
    [game.user]) and the clock reading are explicit inputs. *)

From Stdlib Require Import ZArith String List Bool Lia.
From Stdlib Require Import Floats FunctionalExtensionality.
Import ListNotations.

Set Warnings "-inexact-float".

Local Open Scope string_scope.
Local Open Scope Z_scope.

(** ** Numbers *)

Module Num.

Local Open Scope float_scope.

(** [Math.sign]: 1 for positive arguments, -1 for negative ones, and the
    argument itself otherwise (both zeros and NaN). *)
Definition sign (x : float) : float :=
  if 0 <? x then 1 else if x <? 0 then -1 else x.

(** [Math.sqrt(3) / 2], the hexagonal scale factor. *)
Definition sqrt3_half : float := PrimFloat.sqrt 3 / 2.

End Num.

(** ** Data model *)

(** The shape kinds of a measured template ([MeasuredTemplate["data"]["t"]]). *)
Inductive Shape : Type := circle | cone | rect | ray.

Definition shape_name (s : Shape) : string :=
  match s with
  | circle => "circle"
  | cone => "cone"
  | rect => "rect"
  | ray => "ray"
  end.

Record Point : Type := mkPoint { px : float; py : float }.

(** [range: { val: number; type: string }] *)
Record Range : Type := mkRange { rtype : string; rval : float }.

(** The fields of [MeasuredTemplate.Data] that the template sets. *)
Record TemplateData : Type := mkTemplateData {
  t : Shape;
  user : option string;
  distance : float;
  width : float;
  direction : float;
  x : float;
  y : float;
  angle : float;
  fillColor : string
}.

Record WeaponRangeTemplate : Type := mkTemplate {
  data : TemplateData;
  isBurst : bool;
  range : Range
}.

(** The [DeepPartial] argument of the constructor: the extra fields may be
    missing, and so may each field of [range]. *)
Record PartialRange : Type := mkPartialRange {
  prtype : option string;
  prval : option float
}.

Record CtorData : Type := mkCtorData {
  cd_data : TemplateData;
  cd_isBurst : option bool;
  cd_range : option PartialRange
}.

(** A token as the snapping code reads it: position, pixel size, visibility,
    center and the footprint [data.width] in grid cells. *)
Record Token : Type := mkToken {
  tk_x : float;
  tk_y : float;
  tk_w : float;
  tk_h : float;
  tk_visible : bool;
  tk_center : Point;
  tk_width : float
}.

Inductive Layer : Type :=
| TemplateLayer
| OtherLayer (name : string).

(** The four closures of [activatePreviewListeners]. *)
Inductive Handler : Type := mm | rc | lc | mw.

(** [canvas.grid]: its type code and the two geometry queries of the host. *)
Record Grid : Type := mkGrid {
  gtype : Z;
  getCenter : float -> float -> float * float;
  measureDistance : Point -> Point -> float
}.

(** The ambient [canvas]: readiness, the grid, the tokens layer's placeables,
    the active layer, and the two handler properties of [canvas.app.view]
    that the source assigns. *)
Record Canvas : Type := mkCanvas {
  ready : bool;
  grid : Grid;
  placeables : list Token;
  activeLayer : option Layer;
  oncontextmenu : option Handler;
  onwheel : option Handler
}.

(** [game.user].  The source asserts it is present where a template is built
    ([game.user!.color]), so it is a plain record here. *)
Record User : Type := mkUser { uid : string; color : string }.

(** [canvas?.ready]: an absent canvas is not ready. *)
Definition canvas_ready (c : option Canvas) : bool :=
  match c with
  | Some cv => ready cv
  | None => false
  end.

(** ** Construction *)

(** [constructor(data)]: [isBurst] defaults to [false], [range] to
    [{type: "", val: 0}] overridden field by field. *)
Definition construct (d : CtorData) : WeaponRangeTemplate :=
  {| data := cd_data d;
     isBurst := match cd_isBurst d with Some b => b | None => false end;
     range :=
       match cd_range d with
       | Some r =>
           {| rtype := match prtype r with Some s => s | None => "" end;
              rval := match prval r with Some v => v | None => 0%float end |}
       | None => {| rtype := ""; rval := 0%float |}
       end |}.

(** The [switch] of [fromRange]; [None] is the [default: return null] arm. *)
Definition shape_of_type (type : string) : option Shape :=
  if String.eqb type "Cone" then Some cone
  else if String.eqb type "Line" then Some ray
  else if String.eqb type "Burst" then Some circle
  else if String.eqb type "Blast" then Some circle
  else None.

(** [static fromRange({ type, val })]; [None] is [null]. *)
Definition fromRange (canvas : option Canvas) (u : User)
    (type : string) (val : float) : option WeaponRangeTemplate :=
  match canvas with
  | None => None
  | Some cv =>
      if negb (ready cv) then None
      else
        let hex := 2 <=? gtype (grid cv) in
        match shape_of_type type with
        | None => None
        | Some shape =>
            let scale := if hex then Num.sqrt3_half else 1%float in
            Some (construct
                    {| cd_data :=
                         {| t := shape;
                            user := Some (uid u);
                            distance := ((val + 0.1) * scale)%float;
                            width := scale;
                            direction := 0%float;
                            x := 0%float;
                            y := 0%float;
                            angle := 58%float;
                            fillColor := color u |};
                       cd_isBurst := Some (String.eqb type "Burst");
                       cd_range :=
                         Some {| prtype := Some type; prval := Some val |} |})
        end
  end.

(** ** State, host calls and exceptions *)

(** [new Error("Canvas not set up")] *)
Inductive Exn : Type := CanvasNotSetUp.

(** The calls the template makes on host objects, and its assignments to the
    view's handler properties, recorded in program order. *)
Inductive HostCall : Type :=
| StopPropagation
| PreventDefault
| Draw
| Refresh
| LayerActivate (l : Layer)
| PreviewAddChild
| PreviewRemoveChildren
| StageOn (ev : string) (h : Handler)
| StageOff (ev : string) (h : Handler)
| SetOnContextMenu (h : option Handler)
| SetOnWheel (h : option Handler)
| CreateEmbeddedEntity (kind : string) (d : TemplateData).

(** What a handler can read and write: the ambient canvas, the template
    ([this]), the closure variable [moveTime], and the record of calls. *)
Record World : Type := mkWorld {
  canvas : option Canvas;
  this : WeaponRangeTemplate;
  moveTime : Z;
  calls : list HostCall
}.

(** A computation either returns or throws; the state written before a throw
    stays written. *)
Definition M (A : Type) : Type := World -> (Exn + A) * World.

Definition ret {A : Type} (a : A) : M A := fun w => (inr a, w).

Definition throw {A : Type} (e : Exn) : M A := fun w => (inl e, w).

Definition bind {A B : Type} (m : M A) (k : A -> M B) : M B :=
  fun w =>
    match m w with
    | (inr a, w') => k a w'
    | (inl e, w') => (inl e, w')
    end.

Notation "x <- m ;; k" := (bind m (fun x => k))
  (at level 61, m at next level, right associativity).
Notation "m ;;; k" := (bind m (fun _ => k))
  (at level 61, right associativity).

Definition get : M World := fun w => (inr w, w).

Definition call (h : HostCall) : M unit :=
  fun w =>
    (inr tt,
     {| canvas := canvas w; this := this w; moveTime := moveTime w;
        calls := calls w ++ [h] |}).

Definition set_data (f : TemplateData -> TemplateData) : M unit :=
  fun w =>
    (inr tt,
     {| canvas := canvas w;
        this := {| data := f (data (this w));
                   isBurst := isBurst (this w);
                   range := range (this w) |};
        moveTime := moveTime w;
        calls := calls w |}).

Definition set_moveTime (now : Z) : M unit :=
  fun w =>
    (inr tt,
     {| canvas := canvas w; this := this w; moveTime := now;
        calls := calls w |}).

Definition set_canvas (f : Canvas -> Canvas) : M unit :=
  fun w =>
    (inr tt,
     {| canvas := option_map f (canvas w); this := this w;
        moveTime := moveTime w; calls := calls w |}).

Definition with_distance (d : float) (td : TemplateData) : TemplateData :=
  {| t := t td; user := user td; distance := d; width := width td;
     direction := direction td; x := x td; y := y td; angle := angle td;
     fillColor := fillColor td |}.

Definition with_position (p : Point) (td : TemplateData) : TemplateData :=
  {| t := t td; user := user td; distance := distance td; width := width td;
     direction := direction td; x := px p; y := py p; angle := angle td;
     fillColor := fillColor td |}.

Definition with_direction (d : float) (td : TemplateData) : TemplateData :=
  {| t := t td; user := user td; distance := distance td; width := width td;
     direction := d; x := x td; y := y td; angle := angle td;
     fillColor := fillColor td |}.

Definition with_oncontextmenu (h : option Handler) (cv : Canvas) : Canvas :=
  {| ready := ready cv; grid := grid cv; placeables := placeables cv;
     activeLayer := activeLayer cv; oncontextmenu := h;
     onwheel := onwheel cv |}.

Definition with_onwheel (h : option Handler) (cv : Canvas) : Canvas :=
  {| ready := ready cv; grid := grid cv; placeables := placeables cv;
     activeLayer := activeLayer cv; oncontextmenu := oncontextmenu cv;
     onwheel := h |}.

Definition with_activeLayer (l : option Layer) (cv : Canvas) : Canvas :=
  {| ready := ready cv; grid := grid cv; placeables := placeables cv;
     activeLayer := l; oncontextmenu := oncontextmenu cv;
     onwheel := onwheel cv |}.

(** [layer.activate()]: the host makes [layer] the canvas's active layer,
    which is why [drawPreview] saves the layer that was active and the
    cancel handler activates it again. *)
Definition activate (l : Layer) : M unit :=
  set_canvas (with_activeLayer (Some l)) ;;;
  call (LayerActivate l).

(** [canvas.app.view.oncontextmenu = h] *)
Definition set_oncontextmenu (h : option Handler) : M unit :=
  set_canvas (with_oncontextmenu h) ;;;
  call (SetOnContextMenu h).

(** [canvas.app.view.onwheel = h] *)
Definition set_onwheel (h : option Handler) : M unit :=
  set_canvas (with_onwheel h) ;;;
  call (SetOnWheel h).

(** [if (!canvas?.ready) throw new Error("Canvas not set up")], giving the
    ready canvas to the rest of the method. *)
Definition require_canvas : M Canvas :=
  w <- get ;;
  match canvas w with
  | Some cv => if ready cv then ret cv else throw CanvasNotSetUp
  | None => throw CanvasNotSetUp
  end.

(** ** Snapping helpers *)

(** [snapToCenter({ x, y })] *)
Definition snapToCenter (p : Point) : M Point :=
  cv <- require_canvas ;;
  let snapped := getCenter (grid cv) (px p) (py p) in
  ret {| px := fst snapped; py := snd snapped |}.

(** [getBurstDistance(size)] *)
Definition getBurstDistance (size : float) : M float :=
  cv <- require_canvas ;;
  w <- get ;;
  let hex := 1 <? gtype (grid cv) in
  let scale := if hex then Num.sqrt3_half else 1%float in
  let val := rval (range (this w)) in
  let val' :=
    (if hex then
       let v1 := if size =? 2
                 then val + (0.7 - (if 2 <? val then 0.1 else 0))
                 else val in
       let v2 := if size =? 3 then v1 + 1.2 else v1 in
       if size =? 4 then v2 + 1.5 else v2
     else
       let v1 := if size =? 2 then val + 0.9 else val in
       let v2 := if size =? 3 then v1 + 1.4 else v1 in
       if size =? 4 then v2 + 1.9 else v2)%float in
  ret ((val' + 0.1) * scale)%float.

(** The [filter] predicate of [snapToToken]: the cursor is strictly inside
    the token's bounding box. *)
Definition cursor_inside (p : Point) (tk : Token) : bool :=
  ((tk_x tk <? px p) && (px p <? tk_x tk + tk_w tk)
   && (tk_y tk <? py p) && (py p <? tk_y tk + tk_h tk))%float.

(** The [reduce] callback of [snapToToken]: hidden tokens are skipped and the
    closest of the others is kept. *)
Definition closer (p : Point) (r : option Token) (tk : Token)
  : M (option Token) :=
  cv <- require_canvas ;;
  if negb (tk_visible tk) then ret r
  else
    match r with
    | None => ret (Some tk)
    | Some r0 =>
        if (measureDistance (grid cv) p (tk_center tk)
            <? measureDistance (grid cv) p (tk_center r0))%float
        then ret (Some tk)
        else ret r
    end.

(** [Array.prototype.reduce] with an initial value and a callback that may
    throw. *)
Fixpoint reduce {A B : Type} (f : B -> A -> M B) (l : list A) (init : B)
  : M B :=
  match l with
  | [] => ret init
  | a :: l' => b <- f init a ;; reduce f l' b
  end.

(** [snapToToken({ x, y })] *)
Definition snapToToken (p : Point) : M Point :=
  cv <- require_canvas ;;
  token <- reduce (closer p) (filter (cursor_inside p) (placeables cv)) None ;;
  match token with
  | Some tk =>
      d <- getBurstDistance (tk_width tk) ;;
      set_data (with_distance d) ;;;
      ret (tk_center tk)
  | None =>
      set_data (with_distance 0%float) ;;;
      snapToCenter p
  end.

(** ** Preview handlers *)

(** A pointer-move event as the handler reads it: the pointer's position in
    the layer ([event.data.getLocalPosition(this.layer)]) and the value
    [Date.now()] returns while the event is handled. *)
Record MoveEvent : Type := mkMoveEvent { center : Point; now : Z }.

Record WheelEvent : Type := mkWheelEvent {
  ctrlKey : bool;
  shiftKey : bool;
  deltaY : float
}.

(** [handlers.mm]: update placement (mouse-move). *)
Definition handlers_mm (event : MoveEvent) : M unit :=
  call StopPropagation ;;;
  w <- get ;;
  if now event - moveTime w <=? 20 then ret tt
  else
    snapped <- (if isBurst (this w) then snapToToken (center event)
                else snapToCenter (center event)) ;;
    set_data (with_position snapped) ;;;
    call Refresh ;;;
    set_moveTime (now event).

(** [handlers.rc]: cancel the workflow (right-click). *)
Definition handlers_rc (initialLayer : Layer) : M unit :=
  w <- get ;;
  if negb (canvas_ready (canvas w)) then ret tt
  else
    call PreviewRemoveChildren ;;;
    call (StageOff "mousemove" mm) ;;;
    call (StageOff "mousedown" lc) ;;;
    set_oncontextmenu None ;;;
    set_onwheel None ;;;
    activate initialLayer.

(** [handlers.lc]: confirm the workflow (left-click). *)
Definition handlers_lc (initialLayer : Layer) : M unit :=
  w <- get ;;
  if negb (canvas_ready (canvas w)) then ret tt
  else
    handlers_rc initialLayer ;;;
    w' <- get ;;
    call (CreateEmbeddedEntity "MeasuredTemplate" (data (this w'))).

(** [handlers.mw]: rotate the template (mouse-wheel).  [SQUARE] is the host's
    constant [CONST.GRID_TYPES.SQUARE]. *)
Definition handlers_mw (SQUARE : Z) (event : WheelEvent) : M unit :=
  w <- get ;;
  match canvas w with
  | None => ret tt
  | Some cv =>
      if negb (ready cv) then ret tt
      else
        (if ctrlKey event then call PreventDefault else ret tt) ;;;
        call StopPropagation ;;;
        let delta := if SQUARE <? gtype (grid cv) then 30%float else 15%float in
        let snap := if shiftKey event then delta else 5%float in
        set_data (fun td =>
                    with_direction
                      (direction td + snap * Num.sign (deltaY event))%float
                      td) ;;;
        call Refresh
  end.

(** [activatePreviewListeners(initialLayer)]: the closure variable starts at
    0 and the four listeners are installed when the canvas is ready. *)
Definition activatePreviewListeners (initialLayer : Layer) : M unit :=
  set_moveTime 0 ;;;
  w <- get ;;
  if negb (canvas_ready (canvas w)) then ret tt
  else
    call (StageOn "mousemove" mm) ;;;
    call (StageOn "mousedown" lc) ;;;
    set_oncontextmenu (Some rc) ;;;
    set_onwheel (Some mw).

(** [drawPreview()]; the result is the layer that was active, which the
    handlers close over, or [None] when nothing was started. *)
Definition drawPreview : M (option Layer) :=
  w <- get ;;
  match canvas w with
  | None => ret None
  | Some cv =>
      if negb (ready cv) then ret None
      else
        match activeLayer cv with
        | None => ret None
        | Some initialLayer =>
            call Draw ;;;
            activate TemplateLayer ;;;
            call PreviewAddChild ;;;
            activatePreviewListeners initialLayer ;;;
            ret (Some initialLayer)
        end
  end.

(** Number of [refresh()] calls recorded so far. *)
Definition is_refresh (h : HostCall) : bool :=
  match h with
  | Refresh => true
  | _ => false
  end.

Definition refreshes (w : World) : nat :=
  List.length (filter is_refresh (calls w)).

(** Running a computation for its final state. *)
Definition exec {A : Type} (m : M A) (w : World) : World := snd (m w).

(** ** The deployable sheet *)

Module Sheet.

(** The render model is a graph of JavaScript objects, so two paths may lead
    to one object.  [SheetData] is the object [super.getData()] returns, with
    the two properties the method follows; a store gives each property of
    each object they lead to. *)
Definition Ref : Type := nat.

Inductive Value : Type :=
| VUndefined
| VString (s : string)
| VObject (r : Ref)
| VOther (n : nat).

Definition Store : Type := Ref -> string -> Value.

(** [LancerDeployableSheetData], as far as [getData] reads it. *)
Record SheetData : Type := mkSheetData { data : Ref; actor : Ref }.

(** [o.f = v] *)
Definition assign (st : Store) (o : Ref) (f : string) (v : Value) : Store :=
  fun o' f' => if Nat.eqb o' o && String.eqb f' f then v else st o' f'.

(** [v === ""] *)
Definition is_empty_string (v : Value) : bool :=
  match v with
  | VString s => String.eqb s ""
  | _ => false
  end.

(** [getData()], given the object [super.getData()] returned: the same
    object comes back, with the store as the method leaves it.  (The
    [console.log] line writes nothing.) *)
Definition getData (super_getData : SheetData) (st : Store)
  : SheetData * Store :=
  let d := super_getData in
  if is_empty_string (st (data d) "name")
  then (d, assign st (data d) "name" (st (actor d) "name"))
  else (d, st).

(** The submitted form: the value under each key, [VUndefined] for a key
    that is not there. *)
Definition Form : Type := string -> Value.

(** [formData[k] = v] *)
Definition set_key (fd : Form) (k : string) (v : Value) : Form :=
  fun k' => if String.eqb k' k then v else fd k'.

(** [_updateObject(_event, formData)].  [_updateTokenImage] is a method of
    the parent sheet class and [update] one of the host's actor; both are
    parameters, and the result is whatever [update] returns. *)
Definition _updateObject {R : Type} (_updateTokenImage : Form -> Form)
    (update : Form -> R) (formData : Form) : R :=
  let formData := set_key formData "token.name" (formData "name") in
  let formData := _updateTokenImage formData in
  update formData.

End Sheet.

(** ** Vocabulary of the properties *)

(** The supported range types. *)
Definition supported (type : string) : Prop :=
  type = "Cone" \/ type = "Line" \/ type = "Burst" \/ type = "Blast".

(** A grid is hexagonal when its type code is 2 or more, the test of
    [fromRange]. *)
Definition hexagonal (g : Grid) : Prop := 2 <= gtype g.

(** Position of the first recorded call that satisfies [p]. *)
Fixpoint index_of (p : HostCall -> bool) (l : list HostCall) : option nat :=
  match l with
  | [] => None
  | h :: l' => if p h then Some O else option_map S (index_of p l')
  end.

Definition is_create (h : HostCall) : bool :=
  match h with
  | CreateEmbeddedEntity _ _ => true
  | _ => false
  end.

(** The calls of the cancel handler: the teardown. *)
Definition is_teardown (h : HostCall) : bool :=
  match h with
  | PreviewRemoveChildren | StageOff _ _ | SetOnContextMenu None
  | SetOnWheel None | LayerActivate _ => true
  | _ => false
  end.

(** The calls [handlers.rc] makes on a ready canvas, in program order. *)
Definition teardown_calls (initialLayer : Layer) : list HostCall :=
  [PreviewRemoveChildren; StageOff "mousemove" mm; StageOff "mousedown" lc;
   SetOnContextMenu None; SetOnWheel None; LayerActivate initialLayer].

(** ** Delivery of events *)

(** What the host delivers to the closures [activatePreviewListeners]
    installs: "mousemove" and "mousedown" on the stage, the context menu and
    the wheel on the view. *)
Inductive Input : Type :=
| PointerMove (e : MoveEvent)
| PointerDown
| ContextMenu
| WheelTurn (e : WheelEvent).

Definition deliver (SQUARE : Z) (initialLayer : Layer) (i : Input) : M unit :=
  match i with
  | PointerMove e => handlers_mm e
  | PointerDown => handlers_lc initialLayer
  | ContextMenu => handlers_rc initialLayer
  | WheelTurn e => handlers_mw SQUARE e
  end.

(** A run of deliveries.  An exception ends the delivery it is thrown in and
    the state it leaves is where the next delivery starts. *)
Fixpoint deliver_all (SQUARE : Z) (initialLayer : Layer) (inputs : list Input)
    (w : World) : World :=
  match inputs with
  | [] => w
  | i :: inputs' =>
      deliver_all SQUARE initialLayer inputs'
        (exec (deliver SQUARE initialLayer i) w)
  end.

Definition handler_eqb (a b : Handler) : bool :=
  match a, b with
  | mm, mm | rc, rc | lc, lc | mw, mw => true
  | _, _ => false
  end.

(** The stage listeners a sequence of recorded calls leaves, starting from
    [acc]: [on] adds a listener, [off] removes that handler from that
    event. *)
Fixpoint stage_listeners (cs : list HostCall) (acc : list (string * Handler))
  : list (string * Handler) :=
  match cs with
  | [] => acc
  | StageOn ev h :: cs' => stage_listeners cs' (acc ++ [(ev, h)])
  | StageOff ev h :: cs' =>
      stage_listeners cs'
        (filter (fun p => negb (String.eqb (fst p) ev && handler_eqb (snd p) h))
           acc)
  | _ :: cs' => stage_listeners cs' acc
  end.

(** The calls [drawPreview] makes on a ready canvas with an active layer, in
    program order. *)
Definition preview_calls : list HostCall :=
  [Draw; LayerActivate TemplateLayer; PreviewAddChild;
   StageOn "mousemove" mm; StageOn "mousedown" lc;
   SetOnContextMenu (Some rc); SetOnWheel (Some mw)].

(** What no delivery may change of the template: its burst flag, its range
    and the fields of its data other than position, direction and
    distance. *)
Definition kept (w : World) :=
  (isBurst (this w), range (this w),
   (t (data (this w)), user (data (this w)), width (data (this w)),
    angle (data (this w)), fillColor (data (this w)))).

(** ** Concrete inputs *)

Definition near_token : Token :=
  {| tk_x := 40%float; tk_y := 40%float; tk_w := 100%float;
     tk_h := 100%float; tk_visible := true;
     tk_center := {| px := 90%float; py := 90%float |};
     tk_width := 1%float |}.

Definition hidden_token : Token :=
  {| tk_x := 45%float; tk_y := 45%float; tk_w := 10%float;
     tk_h := 10%float; tk_visible := false;
     tk_center := {| px := 50%float; py := 50%float |};
     tk_width := 1%float |}.

(** A store where the sheet's [data] object is also reachable from the actor
    object: object 1 is the actor, object 2 its data. *)
Definition drone_store (name : string) : Sheet.Store :=
  fun o f =>
    match o with
    | 1%nat => if String.eqb f "name" then Sheet.VString "Drone"
               else if String.eqb f "data" then Sheet.VObject 2%nat
               else Sheet.VUndefined
    | 2%nat => if String.eqb f "name" then Sheet.VString name
               else if String.eqb f "hp" then Sheet.VOther 5%nat
               else Sheet.VUndefined
    | _ => Sheet.VUndefined
    end.

Definition drone_sheet : Sheet.SheetData :=
  {| Sheet.data := 2%nat; Sheet.actor := 1%nat |}.

Definition square_grid : Grid :=
  {| gtype := 1;
     getCenter := fun a b => (a, b);
     measureDistance := fun p q => (px q - px p)%float |}.

Definition hex_grid : Grid :=
  {| gtype := 2;
     getCenter := fun a b => (a, b);
     measureDistance := fun p q => (px q - px p)%float |}.

Definition big_token : Token :=
  {| tk_x := 0%float; tk_y := 0%float; tk_w := 200%float; tk_h := 200%float;
     tk_visible := true;
     tk_center := {| px := 100%float; py := 100%float |};
     tk_width := 2%float |}.

Definition square_canvas : Canvas :=
  {| ready := true; grid := square_grid; placeables := [big_token];
     activeLayer := Some (OtherLayer "tokens");
     oncontextmenu := Some rc; onwheel := Some mw |}.

Definition hex_canvas : Canvas :=
  {| ready := true; grid := hex_grid; placeables := [big_token];
     activeLayer := Some (OtherLayer "tokens");
     oncontextmenu := Some rc; onwheel := Some mw |}.

Definition unready_canvas : Canvas :=
  {| ready := false; grid := square_grid; placeables := [big_token];
     activeLayer := None; oncontextmenu := None; onwheel := None |}.

Definition some_user : User := {| uid := "u1"; color := "#ff0000" |}.

Definition blank_data (s : Shape) : TemplateData :=
  {| t := s; user := Some "u1"; distance := 5.1%float; width := 1%float;
     direction := 0%float; x := 0%float; y := 0%float; angle := 58%float;
     fillColor := "#ff0000" |}.

Definition burst_template : WeaponRangeTemplate :=
  {| data := blank_data circle; isBurst := true;
     range := {| rtype := "Burst"; rval := 3%float |} |}.

Definition blast_template : WeaponRangeTemplate :=
  {| data := blank_data circle; isBurst := false;
     range := {| rtype := "Blast"; rval := 3%float |} |}.

Definition world_of (cv : option Canvas) (tpl : WeaponRangeTemplate) : World :=
  {| canvas := cv; this := tpl; moveTime := 0; calls := [] |}.

Definition tokens_layer : Layer := OtherLayer "tokens".

Definition crowded_canvas : Canvas :=
  {| ready := true; grid := square_grid;
     placeables := [big_token; hidden_token; near_token];
     activeLayer := Some tokens_layer;
     oncontextmenu := None; onwheel := None |}.

(** * Properties *)

(** ** Construction *)

Lemma shape_of_type_supported (type : string) :
  supported type <-> shape_of_type type <> None.
Proof.
  unfold supported, shape_of_type.
  destruct (String.eqb_spec type "Cone"); [split; [discriminate | tauto] |].
  destruct (String.eqb_spec type "Line"); [split; [discriminate | tauto] |].
  destruct (String.eqb_spec type "Burst"); [split; [discriminate | tauto] |].
  destruct (String.eqb_spec type "Blast"); [split; [discriminate | tauto] |].
  split; [intros [H | [H | [H | H]]]; contradiction | congruence].
Qed.

(** With a ready canvas and a type the [switch] knows, [fromRange] returns
    exactly this template. *)
Lemma fromRange_ready (cv : Canvas) (u : User) (type : string) (val : float)
    (s : Shape) :
  ready cv = true ->
  shape_of_type type = Some s ->
  fromRange (Some cv) u type val =
  Some {| data :=
            {| t := s; user := Some (uid u);
               distance :=
                 ((val + 0.1)
                  * (if (2 <=? gtype (grid cv))%Z then Num.sqrt3_half else 1))%float;
               width := if 2 <=? gtype (grid cv) then Num.sqrt3_half
                        else 1%float;
               direction := 0%float; x := 0%float; y := 0%float;
               angle := 58%float; fillColor := color u |};
          isBurst := String.eqb type "Burst";
          range := {| rtype := type; rval := val |} |}.
Proof.
  intros Hr Hs. unfold fromRange. rewrite Hr, Hs. reflexivity.
Qed.

(** Whatever [fromRange] returns, it got a ready canvas and a known type. *)
Lemma fromRange_Some_inv (c : option Canvas) (u : User) (type : string)
    (val : float) (tpl : WeaponRangeTemplate) :
  fromRange c u type val = Some tpl ->
  exists cv s, c = Some cv /\ ready cv = true /\ shape_of_type type = Some s.
Proof.
  unfold fromRange. destruct c as [cv |]; [| discriminate].
  destruct (ready cv) eqn:Hr; cbn; [| discriminate].
  destruct (shape_of_type type) as [s |] eqn:Hs; [| discriminate].
  intros _. now exists cv, s.
Qed.

(** C1: with a ready canvas, [fromRange] builds a template of shape kind
    "cone" for "Cone", "ray" for "Line" and "circle" for "Burst" and "Blast",
    and returns null for every other type string. *)
Theorem fromRange_shape_kind (cv : Canvas) (u : User) (type : string)
    (val : float) :
  ready cv = true ->
  (type = "Cone" ->
   exists tpl, fromRange (Some cv) u type val = Some tpl
               /\ shape_name (t (data tpl)) = "cone") /\
  (type = "Line" ->
   exists tpl, fromRange (Some cv) u type val = Some tpl
               /\ shape_name (t (data tpl)) = "ray") /\
  (type = "Burst" \/ type = "Blast" ->
   exists tpl, fromRange (Some cv) u type val = Some tpl
               /\ shape_name (t (data tpl)) = "circle") /\
  (~ supported type -> fromRange (Some cv) u type val = None).
Proof.
  intros Hr. repeat split.
  - intros ->. rewrite (fromRange_ready cv u "Cone" val cone Hr eq_refl).
    eexists. split; reflexivity.
  - intros ->. rewrite (fromRange_ready cv u "Line" val ray Hr eq_refl).
    eexists. split; reflexivity.
  - intros [-> | ->].
    + rewrite (fromRange_ready cv u "Burst" val circle Hr eq_refl).
      eexists. split; reflexivity.
    + rewrite (fromRange_ready cv u "Blast" val circle Hr eq_refl).
      eexists. split; reflexivity.
  - intros Hn. unfold fromRange. rewrite Hr. cbn.
    destruct (shape_of_type type) eqn:E; [| reflexivity].
    exfalso. apply Hn. apply shape_of_type_supported. congruence.
Qed.

Lemma fromRange_shape_kind_witness :
  ready hex_canvas = true /\
  (exists tpl, fromRange (Some hex_canvas) some_user "Line" 8%float = Some tpl
               /\ shape_name (t (data tpl)) = "ray") /\
  fromRange (Some hex_canvas) some_user "Thrown" 5%float = None.
Proof.
  split; [reflexivity |]. split.
  - apply (fromRange_shape_kind hex_canvas some_user "Line" 8%float eq_refl).
    reflexivity.
  - apply (fromRange_shape_kind hex_canvas some_user "Thrown" 5%float eq_refl).
    unfold supported. intros [H | [H | [H | H]]]; discriminate.
Defined.

(** C2: for every val >= 0 and every supported type, the initial distance is
    [(val + 0.1) * scale], with scale 1 on a grid that is not hexagonal and
    sqrt(3)/2 on a hexagonal one. *)
Theorem fromRange_distance (cv : Canvas) (u : User) (type : string)
    (val : float) :
  ready cv = true ->
  supported type ->
  (0 <=? val)%float = true ->
  exists tpl,
    fromRange (Some cv) u type val = Some tpl /\
    (~ hexagonal (grid cv) ->
     distance (data tpl) = ((val + 0.1) * 1)%float) /\
    (hexagonal (grid cv) ->
     distance (data tpl) = ((val + 0.1) * (PrimFloat.sqrt 3 / 2))%float).
Proof.
  intros Hr Hs _. apply shape_of_type_supported in Hs.
  destruct (shape_of_type type) as [s |] eqn:E; [| congruence].
  rewrite (fromRange_ready cv u type val s Hr E).
  eexists. split; [reflexivity |]. unfold hexagonal. cbn.
  destruct (Z.leb_spec 2 (gtype (grid cv))); split; intros; try lia;
    reflexivity.
Qed.

Lemma fromRange_distance_witness :
  exists tpl,
    fromRange (Some hex_canvas) some_user "Cone" 5%float = Some tpl /\
    distance (data tpl) = ((5 + 0.1) * (PrimFloat.sqrt 3 / 2))%float.
Proof.
  destruct (fromRange_distance hex_canvas some_user "Cone" 5%float)
    as [tpl [E [_ H]]].
  - reflexivity.
  - left. reflexivity.
  - reflexivity.
  - exists tpl. split; [exact E |]. apply H. unfold hexagonal. cbn. lia.
Defined.

(** ** The canvas guard *)

Lemma canvas_ready_Some (w : World) :
  canvas_ready (canvas w) = true ->
  exists cv, canvas w = Some cv /\ ready cv = true.
Proof.
  unfold canvas_ready. destruct (canvas w) as [cv |]; [| discriminate].
  intros H. now exists cv.
Qed.

Lemma require_canvas_ready (w : World) (cv : Canvas) :
  canvas w = Some cv -> ready cv = true -> require_canvas w = (inr cv, w).
Proof.
  intros Hc Hr. unfold require_canvas, bind, get. now rewrite Hc, Hr.
Qed.

Lemma require_canvas_unready (w : World) :
  canvas_ready (canvas w) = false ->
  require_canvas w = (inl CanvasNotSetUp, w).
Proof.
  unfold canvas_ready, require_canvas, bind, get.
  destruct (canvas w) as [cv |]; [| reflexivity].
  now intros ->.
Qed.

(** A method that starts with the guard throws at once on an unready
    canvas, whatever follows the guard. *)
Lemma guarded_unready {A : Type} (k : Canvas -> M A) (w : World) :
  canvas_ready (canvas w) = false ->
  (cv <- require_canvas ;; k cv) w = (inl CanvasNotSetUp, w).
Proof.
  intros H. unfold bind. now rewrite (require_canvas_unready w H).
Qed.

Lemma guarded_ready {A : Type} (k : Canvas -> M A) (w : World) (cv : Canvas) :
  canvas w = Some cv -> ready cv = true ->
  (cv' <- require_canvas ;; k cv') w = k cv w.
Proof.
  intros Hc Hr. unfold bind. now rewrite (require_canvas_ready w cv Hc Hr).
Qed.

Lemma snapToCenter_ready (w : World) (cv : Canvas) (p : Point) :
  canvas w = Some cv -> ready cv = true ->
  snapToCenter p w =
  (inr {| px := fst (getCenter (grid cv) (px p) (py p));
          py := snd (getCenter (grid cv) (px p) (py p)) |}, w).
Proof.
  intros Hc Hr. unfold snapToCenter.
  now rewrite (guarded_ready _ w cv Hc Hr).
Qed.

Lemma getBurstDistance_ready (w : World) (cv : Canvas) (size : float) :
  canvas w = Some cv -> ready cv = true ->
  exists d, getBurstDistance size w = (inr d, w).
Proof.
  intros Hc Hr. unfold getBurstDistance.
  rewrite (guarded_ready _ w cv Hc Hr). cbn. eexists. reflexivity.
Qed.

(** On a ready canvas the [reduce] of [snapToToken] runs to the end and
    writes nothing. *)
Lemma reduce_closer_ready (w : World) (cv : Canvas) (p : Point)
    (l : list Token) :
  canvas w = Some cv -> ready cv = true ->
  forall init, exists r, reduce (closer p) l init w = (inr r, w).
Proof.
  intros Hc Hr. induction l as [| tk l IH]; intros init.
  - exists init. reflexivity.
  - cbn [reduce]. unfold bind at 1. unfold closer at 1.
    rewrite (guarded_ready _ w cv Hc Hr).
    destruct (tk_visible tk); cbn.
    + destruct init as [r0 |]; cbn.
      * destruct (PrimFloat.ltb _ _); cbn; apply IH.
      * apply IH.
    + apply IH.
Qed.

(** Hidden tokens never replace the accumulator. *)
Lemma reduce_closer_hidden (w : World) (cv : Canvas) (p : Point)
    (l : list Token) :
  canvas w = Some cv -> ready cv = true ->
  (forall tk, In tk l -> tk_visible tk = false) ->
  forall init, reduce (closer p) l init w = (inr init, w).
Proof.
  intros Hc Hr. induction l as [| tk l IH]; intros Hh init.
  - reflexivity.
  - cbn [reduce]. unfold bind at 1. unfold closer at 1.
    rewrite (guarded_ready _ w cv Hc Hr).
    rewrite (Hh tk (or_introl eq_refl)). cbn.
    apply IH. intros tk' Hin. apply Hh. now right.
Qed.

Lemma snapToToken_ready (w : World) (cv : Canvas) (p : Point) :
  canvas w = Some cv -> ready cv = true ->
  exists c d,
    snapToToken p w = (inr c, exec (set_data (with_distance d)) w).
Proof.
  intros Hc Hr. unfold snapToToken.
  rewrite (guarded_ready _ w cv Hc Hr).
  destruct (reduce_closer_ready w cv p
              (filter (cursor_inside p) (placeables cv)) Hc Hr None)
    as [r Hred].
  unfold bind at 1. rewrite Hred.
  destruct r as [tk |].
  - destruct (getBurstDistance_ready w cv (tk_width tk) Hc Hr) as [d Hd].
    unfold bind at 1. rewrite Hd.
    exists (tk_center tk), d. reflexivity.
  - unfold bind at 1. cbn [set_data].
    eexists. exists 0%float.
    apply (snapToCenter_ready (exec (set_data (with_distance 0)) w) cv p);
      [exact Hc | exact Hr].
Qed.

(** C9: called while the canvas is not ready, each snapping helper throws
    "Canvas not set up" instead of returning; with a ready canvas each of
    them returns a value, so that branch is not taken. *)
Theorem snapping_helpers_guard (w : World) (p : Point) (size : float) :
  (canvas_ready (canvas w) = false ->
   snapToCenter p w = (inl CanvasNotSetUp, w) /\
   snapToToken p w = (inl CanvasNotSetUp, w) /\
   getBurstDistance size w = (inl CanvasNotSetUp, w)) /\
  (canvas_ready (canvas w) = true ->
   (exists c, snapToCenter p w = (inr c, w)) /\
   (exists c w', snapToToken p w = (inr c, w')) /\
   (exists d, getBurstDistance size w = (inr d, w))).
Proof.
  split.
  - intros H. repeat split; apply guarded_unready; exact H.
  - intros H. destruct (canvas_ready_Some w H) as [cv [Hc Hr]].
    repeat split.
    + eexists. apply (snapToCenter_ready w cv p Hc Hr).
    + destruct (snapToToken_ready w cv p Hc Hr) as [c [d E]].
      exists c. eexists. exact E.
    + apply (getBurstDistance_ready w cv size Hc Hr).
Qed.

Lemma snapping_helpers_guard_witness :
  snapToToken {| px := 50%float; py := 50%float |}
    (world_of (Some unready_canvas) burst_template)
  = (inl CanvasNotSetUp, world_of (Some unready_canvas) burst_template) /\
  (exists d,
     getBurstDistance 2%float (world_of (Some square_canvas) burst_template)
     = (inr d, world_of (Some square_canvas) burst_template)).
Proof.
  split.
  - apply (snapping_helpers_guard
             (world_of (Some unready_canvas) burst_template)
             {| px := 50%float; py := 50%float |} 2%float).
    reflexivity.
  - apply (snapping_helpers_guard
             (world_of (Some square_canvas) burst_template)
             {| px := 50%float; py := 50%float |} 2%float).
    reflexivity.
Defined.

(** ** Snapping *)

(** C5: when no visible token's bounding box contains the pointer,
    [snapToToken] returns the point [snapToCenter] returns for that position
    and sets the template's distance to 0. *)
Theorem snapToToken_fallback (w : World) (cv : Canvas) (p : Point) :
  canvas w = Some cv -> ready cv = true ->
  (forall tk, In tk (placeables cv) -> tk_visible tk = true ->
              cursor_inside p tk = false) ->
  exists c,
    snapToCenter p w = (inr c, w) /\
    snapToToken p w = (inr c, exec (set_data (with_distance 0%float)) w) /\
    distance (data (this (exec (snapToToken p) w))) = 0%float.
Proof.
  intros Hc Hr Hno.
  assert (Hhid : forall tk, In tk (filter (cursor_inside p) (placeables cv)) ->
                            tk_visible tk = false).
  { intros tk Hin. apply filter_In in Hin. destruct Hin as [Hin Hins].
    destruct (tk_visible tk) eqn:Hv; [| reflexivity].
    rewrite (Hno tk Hin Hv) in Hins. discriminate. }
  assert (E : snapToToken p w =
              (inr {| px := fst (getCenter (grid cv) (px p) (py p));
                      py := snd (getCenter (grid cv) (px p) (py p)) |},
               exec (set_data (with_distance 0%float)) w)).
  { unfold snapToToken. rewrite (guarded_ready _ w cv Hc Hr).
    unfold bind at 1.
    rewrite (reduce_closer_hidden w cv p _ Hc Hr Hhid None).
    unfold bind at 1. cbn [set_data].
    apply (snapToCenter_ready (exec (set_data (with_distance 0)) w) cv p);
      [exact Hc | exact Hr]. }
  eexists. split; [apply (snapToCenter_ready w cv p Hc Hr) |].
  split; [exact E |].
  unfold exec at 1. rewrite E. reflexivity.
Qed.

Lemma snapToToken_fallback_witness :
  exists c,
    snapToCenter {| px := 250%float; py := 50%float |}
      (world_of (Some square_canvas) burst_template)
    = (inr c, world_of (Some square_canvas) burst_template) /\
    snapToToken {| px := 250%float; py := 50%float |}
      (world_of (Some square_canvas) burst_template)
    = (inr c, exec (set_data (with_distance 0%float))
                (world_of (Some square_canvas) burst_template)) /\
    distance (data (this (exec (snapToToken {| px := 250%float;
                                               py := 50%float |})
                            (world_of (Some square_canvas) burst_template))))
    = 0%float.
Proof.
  apply (snapToToken_fallback (world_of (Some square_canvas) burst_template)
           square_canvas {| px := 250%float; py := 50%float |}).
  - reflexivity.
  - reflexivity.
  - intros tk [<- | []] _. vm_compute. reflexivity.
Defined.

(** ** Burst sizing *)

(** The two hexagon tests of the source, [type >= 2] in [fromRange] and
    [type > 1] in [getBurstDistance], agree on integer type codes. *)
Lemma hexagonal_ltb (g : Grid) :
  (hexagonal g -> (1 <? gtype g) = true) /\
  (~ hexagonal g -> (1 <? gtype g) = false).
Proof.
  unfold hexagonal. destruct (Z.ltb_spec 1 (gtype g)); split; intros; lia.
Qed.

Ltac burst_case Hc Hr Hhex :=
  intros; subst; unfold getBurstDistance;
  rewrite (guarded_ready _ _ _ Hc Hr); cbn -[PrimFloat.ltb];
  rewrite Hhex;
  repeat match goal with
         | H : PrimFloat.ltb _ _ = _ |- _ => rewrite H
         end;
  reflexivity.

(** C3: for val >= 0 and a footprint of 1, 2, 3 or 4 cells,
    [getBurstDistance] is [(val' + 0.1) * scale], where [val'] adds to [val]:
    on a hexagonal grid 0.7 for size 2 (0.7 - 0.1 when val > 2), 1.2 for
    size 3 and 1.5 for size 4; otherwise 0.9, 1.4 and 1.9; size 1 adds
    nothing.  On a square grid with size 2 this is [(val + 0.9 + 0.1) * 1]. *)
Theorem getBurstDistance_table (w : World) (cv : Canvas) (size : float) :
  canvas w = Some cv -> ready cv = true ->
  (0 <=? rval (range (this w)))%float = true ->
  let val := rval (range (this w)) in
  let hex := (PrimFloat.sqrt 3 / 2)%float in
  (hexagonal (grid cv) ->
   (size = 1%float ->
    getBurstDistance size w = (inr ((val + 0.1) * hex)%float, w)) /\
   (size = 2%float -> (2 <? val)%float = true ->
    getBurstDistance size w
    = (inr ((val + (0.7 - 0.1) + 0.1) * hex)%float, w)) /\
   (size = 2%float -> (2 <? val)%float = false ->
    getBurstDistance size w = (inr ((val + 0.7 + 0.1) * hex)%float, w)) /\
   (size = 3%float ->
    getBurstDistance size w = (inr ((val + 1.2 + 0.1) * hex)%float, w)) /\
   (size = 4%float ->
    getBurstDistance size w = (inr ((val + 1.5 + 0.1) * hex)%float, w))) /\
  (~ hexagonal (grid cv) ->
   (size = 1%float ->
    getBurstDistance size w = (inr ((val + 0.1) * 1)%float, w)) /\
   (size = 2%float ->
    getBurstDistance size w = (inr ((val + 0.9 + 0.1) * 1)%float, w)) /\
   (size = 3%float ->
    getBurstDistance size w = (inr ((val + 1.4 + 0.1) * 1)%float, w)) /\
   (size = 4%float ->
    getBurstDistance size w = (inr ((val + 1.9 + 0.1) * 1)%float, w))).
Proof.
  intros Hc Hr _ val hex. subst val hex. split; intros Hx.
  - apply (proj1 (hexagonal_ltb (grid cv))) in Hx.
    repeat split; burst_case Hc Hr Hx.
  - apply (proj2 (hexagonal_ltb (grid cv))) in Hx.
    repeat split; burst_case Hc Hr Hx.
Qed.

Lemma getBurstDistance_table_witness :
  getBurstDistance 2%float (world_of (Some square_canvas) burst_template)
  = (inr ((3 + 0.9 + 0.1) * 1)%float,
     world_of (Some square_canvas) burst_template) /\
  getBurstDistance 2%float (world_of (Some hex_canvas) burst_template)
  = (inr ((3 + (0.7 - 0.1) + 0.1) * (PrimFloat.sqrt 3 / 2))%float,
     world_of (Some hex_canvas) burst_template).
Proof.
  split.
  - apply (getBurstDistance_table
             (world_of (Some square_canvas) burst_template)
             square_canvas 2%float eq_refl eq_refl eq_refl).
    + unfold hexagonal. cbn. lia.
    + reflexivity.
  - apply (getBurstDistance_table
             (world_of (Some hex_canvas) burst_template)
             hex_canvas 2%float eq_refl eq_refl eq_refl).
    + unfold hexagonal. cbn. lia.
    + reflexivity.
    + reflexivity.
Defined.

(** ** The move handler *)

(** A throttled move only stops the event's propagation. *)
Lemma handlers_mm_throttled (w : World) (ev : MoveEvent) :
  now ev - moveTime w <= 20 ->
  handlers_mm ev w = (inr tt, exec (call StopPropagation) w).
Proof.
  intros Hle. unfold handlers_mm, bind, get, call, exec. cbn.
  destruct (Z.leb_spec (now ev - moveTime w) 20); [reflexivity | lia].
Qed.

(** A move that passes the throttle on a ready canvas snaps, refreshes once
    and records its time.  A template that is not a burst takes the grid
    center of the pointer and keeps the rest of its data. *)
Lemma handlers_mm_applied (w : World) (cv : Canvas) (ev : MoveEvent) :
  canvas w = Some cv -> ready cv = true ->
  20 < now ev - moveTime w ->
  exists c td,
    handlers_mm ev w =
    (inr tt,
     {| canvas := canvas w;
        this := {| data := with_position c td;
                   isBurst := isBurst (this w);
                   range := range (this w) |};
        moveTime := now ev;
        calls := calls w ++ [StopPropagation; Refresh] |}) /\
    (isBurst (this w) = false ->
     td = data (this w) /\
     c = {| px := fst (getCenter (grid cv) (px (center ev)) (py (center ev)));
            py := snd (getCenter (grid cv) (px (center ev))
                         (py (center ev))) |}).
Proof.
  intros Hc Hr Hlt.
  set (w0 := exec (call StopPropagation) w).
  assert (Hc0 : canvas w0 = Some cv) by exact Hc.
  unfold handlers_mm. unfold bind at 1. cbn [call]. fold w0.
  change ({| canvas := canvas w; this := this w; moveTime := moveTime w;
             calls := calls w ++ [StopPropagation] |}) with w0.
  unfold bind at 1. cbn [get].
  change (moveTime w0) with (moveTime w).
  destruct (Z.leb_spec (now ev - moveTime w) 20); [lia |].
  change (isBurst (this w0)) with (isBurst (this w)).
  destruct (isBurst (this w)) eqn:Hb.
  - destruct (snapToToken_ready w0 cv (center ev) Hc0 Hr) as [c [d E]].
    exists c, (with_distance d (data (this w))).
    split; [| discriminate].
    unfold bind at 1. rewrite E.
    unfold bind, set_data, call, set_moveTime, exec, w0; cbn.
    rewrite <- app_assoc, ?Hb. reflexivity.
  - eexists. exists (data (this w)).
    split; [| intros _; split; reflexivity].
    unfold bind at 1. rewrite (snapToCenter_ready w0 cv (center ev) Hc0 Hr).
    unfold bind, set_data, call, set_moveTime, exec, w0; cbn.
    rewrite <- app_assoc, ?Hb. reflexivity.
Qed.

Lemma refreshes_app (cs l : list HostCall) :
  List.length (filter is_refresh (cs ++ l))
  = (List.length (filter is_refresh cs)
     + List.length (filter is_refresh l))%nat.
Proof.
  now rewrite filter_app, length_app.
Qed.

(** C4 as stated fails at exactly 20 ms: of two moves handled at 1000 and
    1020, the second arrives 20 ms after the applied first one and is
    dropped; the template stays on the token under the first pointer. *)
Lemma move_throttle_at_20ms :
  let e1 := {| center := {| px := 50%float; py := 50%float |};
               now := 1000 |} in
  let e2 := {| center := {| px := 250%float; py := 50%float |};
               now := 1020 |} in
  let w := world_of (Some square_canvas) burst_template in
  let w1 := exec (handlers_mm e1) w in
  let w2 := exec (handlers_mm e2) w1 in
  refreshes w1 = S (refreshes w) /\
  20 <= now e2 - moveTime w1 /\
  refreshes w2 <> S (refreshes w1) /\
  refreshes w2 = refreshes w1 /\
  this w2 = this w1.
Proof.
  vm_compute. repeat split; discriminate.
Qed.

(** The move handler never changes the burst flag or the range. *)
Lemma handlers_mm_isBurst (w : World) (cv : Canvas) (ev : MoveEvent) :
  canvas w = Some cv -> ready cv = true ->
  isBurst (this (exec (handlers_mm ev) w)) = isBurst (this w).
Proof.
  intros Hc Hr. unfold exec.
  destruct (Z.leb_spec (now ev - moveTime w) 20) as [Hle | Hlt].
  - now rewrite (handlers_mm_throttled w ev Hle).
  - destruct (handlers_mm_applied w cv ev Hc Hr Hlt) as [c [td [E _]]].
    now rewrite E.
Qed.

(** C10: a template [fromRange] builds has [isBurst] true exactly when the
    type string is "Burst".  A "Blast" template is a circle with [isBurst]
    false, and a move over a template with that flag puts it on the grid
    center of the pointer, whatever tokens are there, leaving its distance
    and its flag alone. *)
Theorem blast_is_not_burst (c : option Canvas) (u : User) (type : string)
    (val : float) (tpl : WeaponRangeTemplate) :
  fromRange c u type val = Some tpl ->
  (isBurst tpl = true <-> type = "Burst") /\
  (type = "Blast" ->
   shape_name (t (data tpl)) = "circle" /\
   isBurst tpl = false /\
   forall (w : World) (cv : Canvas) (ev : MoveEvent),
     isBurst (this w) = isBurst tpl ->
     canvas w = Some cv -> ready cv = true ->
     let w' := exec (handlers_mm ev) w in
     let g := getCenter (grid cv) (px (center ev)) (py (center ev)) in
     isBurst (this w') = isBurst tpl /\
     distance (data (this w')) = distance (data (this w)) /\
     (20 < now ev - moveTime w ->
      x (data (this w')) = fst g /\ y (data (this w')) = snd g) /\
     (now ev - moveTime w <= 20 -> this w' = this w)).
Proof.
  intros H.
  destruct (fromRange_Some_inv c u type val tpl H) as [cv0 [s [-> [Hr0 Hs]]]].
  rewrite (fromRange_ready cv0 u type val s Hr0 Hs) in H.
  injection H as <-. cbn [isBurst data t]. split.
  - apply String.eqb_eq.
  - intros ->. cbn in Hs. injection Hs as <-.
    split; [reflexivity |]. split; [reflexivity |].
    intros w cv ev Hb Hc Hr. cbn in Hb.
    split; [| split; [| split]].
    + rewrite (handlers_mm_isBurst w cv ev Hc Hr). exact Hb.
    + unfold exec.
      destruct (Z.leb_spec (now ev - moveTime w) 20) as [Hle | Hlt].
      * now rewrite (handlers_mm_throttled w ev Hle).
      * destruct (handlers_mm_applied w cv ev Hc Hr Hlt) as [p [td [E Hnb]]].
        destruct (Hnb Hb) as [-> _]. now rewrite E.
    + intros Hlt. unfold exec.
      destruct (handlers_mm_applied w cv ev Hc Hr Hlt) as [p [td [E Hnb]]].
      destruct (Hnb Hb) as [_ ->]. rewrite E. split; reflexivity.
    + intros Hle. unfold exec.
      now rewrite (handlers_mm_throttled w ev Hle).
Qed.

Lemma blast_is_not_burst_witness :
  exists tpl,
    fromRange (Some square_canvas) some_user "Blast" 3%float = Some tpl /\
    isBurst tpl = false /\
    x (data (this (exec (handlers_mm
                           {| center := {| px := 50%float; py := 60%float |};
                              now := 1000 |})
                     (world_of (Some square_canvas) tpl)))) = 50%float.
Proof.
  destruct (fromRange (Some square_canvas) some_user "Blast" 3%float)
    as [tpl |] eqn:E; [| discriminate E].
  exists tpl. split; [reflexivity |].
  destruct (blast_is_not_burst _ _ _ _ _ E) as [_ H].
  destruct (H eq_refl) as [_ [Hb Hm]].
  split; [exact Hb |].
  destruct (Hm (world_of (Some square_canvas) tpl) square_canvas
              {| center := {| px := 50%float; py := 60%float |};
                 now := 1000 |} eq_refl eq_refl eq_refl)
    as [_ [_ [Hx _]]].
  destruct Hx as [Hx _]; [cbn; lia |]. exact Hx.
Defined.

(** ** The wheel handler *)

Lemma handlers_mw_ready (SQUARE : Z) (w : World) (cv : Canvas)
    (ev : WheelEvent) :
  canvas w = Some cv -> ready cv = true ->
  handlers_mw SQUARE ev w =
  (inr tt,
   {| canvas := canvas w;
      this :=
        {| data :=
             with_direction
               (direction (data (this w))
                + (if shiftKey ev
                   then if (SQUARE <? gtype (grid cv))%Z then 30 else 15
                   else 5)
                  * Num.sign (deltaY ev))%float
               (data (this w));
           isBurst := isBurst (this w);
           range := range (this w) |};
      moveTime := moveTime w;
      calls := calls w
               ++ (if ctrlKey ev then [PreventDefault] else [])
               ++ [StopPropagation; Refresh] |}).
Proof.
  intros Hc Hr. unfold handlers_mw. unfold bind at 1. cbn [get].
  rewrite Hc, Hr. cbn [negb].
  destruct (ctrlKey ev);
    unfold bind, call, set_data, ret; cbn; rewrite <- !app_assoc, ?Hc;
    reflexivity.
Qed.

Lemma sign_positive (a : float) :
  (0 <? a)%float = true -> Num.sign a = 1%float.
Proof.
  intros H. unfold Num.sign. now rewrite H.
Qed.

(** A float below zero is not above it. *)
Lemma ltb_zero_asym (a : float) :
  (a <? 0)%float = true -> (0 <? a)%float = false.
Proof.
  rewrite !ltb_spec. unfold SFltb.
  replace (Prim2SF 0%float) with (S754_zero false) by reflexivity.
  destruct (Prim2SF a) as [s | s | | s m e]; try destruct s; cbn;
    congruence.
Qed.

Lemma sign_negative (a : float) :
  (a <? 0)%float = true -> Num.sign a = (-1)%float.
Proof.
  intros H. unfold Num.sign. now rewrite (ltb_zero_asym a H), H.
Qed.

(** C6, as the code has it: on a ready canvas a wheel event adds
    [snap * Math.sign(deltaY)] to the direction, where [snap] is 5 without
    Shift and, with Shift, 15 when the grid type is at most SQUARE and 30
    when it is above; so a positive [deltaY] adds [snap], a negative one
    adds [-snap], a zero one adds 0, and nothing is taken modulo 360. *)
Theorem wheel_rotation (SQUARE : Z) (w : World) (cv : Canvas)
    (ev : WheelEvent) :
  canvas w = Some cv -> ready cv = true ->
  exists snap : float,
    (shiftKey ev = false -> snap = 5%float) /\
    (shiftKey ev = true -> gtype (grid cv) <= SQUARE -> snap = 15%float) /\
    (shiftKey ev = true -> SQUARE < gtype (grid cv) -> snap = 30%float) /\
    direction (data (this (exec (handlers_mw SQUARE ev) w)))
    = (direction (data (this w)) + snap * Num.sign (deltaY ev))%float /\
    ((0 <? deltaY ev)%float = true ->
     direction (data (this (exec (handlers_mw SQUARE ev) w)))
     = (direction (data (this w)) + snap)%float) /\
    ((deltaY ev <? 0)%float = true ->
     direction (data (this (exec (handlers_mw SQUARE ev) w)))
     = (direction (data (this w)) + - snap)%float) /\
    (deltaY ev = 0%float ->
     direction (data (this (exec (handlers_mw SQUARE ev) w)))
     = (direction (data (this w)) + 0)%float).
Proof.
  intros Hc Hr. unfold exec.
  rewrite (handlers_mw_ready SQUARE w cv ev Hc Hr). cbn [snd this data].
  unfold with_direction. cbn [direction].
  destruct (shiftKey ev);
    [destruct (Z.ltb_spec SQUARE (gtype (grid cv))) |];
    eexists; (split; [intros; try discriminate; try lia; reflexivity |]);
    (split; [intros; try discriminate; try lia; reflexivity |]);
    (split; [intros; try discriminate; try lia; reflexivity |]);
    (split; [reflexivity |]);
    (split; [intros Hp; rewrite (sign_positive _ Hp); reflexivity |]);
    (split;
     [intros Hn; rewrite (sign_negative _ Hn)
     | intros Hz; rewrite Hz]);
    reflexivity.
Qed.

Lemma wheel_rotation_witness :
  direction
    (data (this (exec (handlers_mw 1 {| ctrlKey := false; shiftKey := true;
                                        deltaY := (-100)%float |})
                   (world_of (Some hex_canvas) blast_template))))
  = (0 + - 30)%float.
Proof.
  destruct (wheel_rotation 1 (world_of (Some hex_canvas) blast_template)
              hex_canvas
              {| ctrlKey := false; shiftKey := true; deltaY := (-100)%float |}
              eq_refl eq_refl)
    as [snap [_ [_ [H30 [_ [_ [Hneg _]]]]]]].
  rewrite (Hneg eq_refl).
  rewrite H30; [reflexivity | reflexivity | cbn; lia].
Defined.

(** C6 as stated fails for a wheel event without vertical movement
    ([deltaY] 0, a sideways scroll): the direction is then neither 5 more nor
    5 less, it stays where it was. *)
Lemma wheel_without_vertical_delta :
  let ev := {| ctrlKey := false; shiftKey := false; deltaY := 0%float |} in
  let w := world_of (Some square_canvas) blast_template in
  let d := direction (data (this w)) in
  let d' := direction (data (this (exec (handlers_mw 1 ev) w))) in
  d' = d /\ d' <> (d + 5)%float /\ d' <> (d - 5)%float.
Proof.
  cbv zeta. split; [vm_compute; reflexivity |].
  split; intros H;
    apply (f_equal (fun z => PrimFloat.eqb z 0%float)) in H;
    vm_compute in H; discriminate.
Qed.

(** The direction keeps growing past a full turn. *)
Lemma wheel_past_full_turn :
  let ev := {| ctrlKey := false; shiftKey := true; deltaY := 3%float |} in
  let turn w := exec (handlers_mw 1 ev) w in
  direction
    (data (this (Nat.iter 13 turn (world_of (Some hex_canvas) blast_template))))
  = 390%float.
Proof.
  vm_compute. reflexivity.
Qed.

(** ** Cancel and confirm *)

Lemma handlers_rc_ready (w : World) (cv : Canvas) (initialLayer : Layer) :
  canvas w = Some cv -> ready cv = true ->
  handlers_rc initialLayer w =
  (inr tt,
   {| canvas := Some (with_activeLayer (Some initialLayer)
                        (with_onwheel None (with_oncontextmenu None cv)));
      this := this w;
      moveTime := moveTime w;
      calls := (calls w ++ teardown_calls initialLayer)%list |}).
Proof.
  intros Hc Hr. unfold handlers_rc. unfold bind at 1. cbn [get].
  unfold canvas_ready. rewrite Hc, Hr. cbn [negb].
  unfold bind, call, activate, set_oncontextmenu, set_onwheel, set_canvas,
    bind, call; cbn.
  rewrite Hc. cbn. rewrite <- !app_assoc. reflexivity.
Qed.

(** C7, as the code has it: on a left click with a ready canvas the handler
    first runs the teardown (preview cleared, the two stage listeners
    removed, the two view handlers set to null, the initial layer
    activated) and only then hands the template's data to
    [createEmbeddedEntity]. *)
Theorem confirm_teardown_then_create (w : World) (cv : Canvas)
    (initialLayer : Layer) :
  canvas w = Some cv -> ready cv = true ->
  let w' := exec (handlers_lc initialLayer) w in
  fst (handlers_lc initialLayer w) = inr tt /\
  calls w' =
  (calls w ++ teardown_calls initialLayer
           ++ [CreateEmbeddedEntity "MeasuredTemplate" (data (this w))])%list /\
  (exists cv', canvas w' = Some cv' /\
               oncontextmenu cv' = None /\ onwheel cv' = None) /\
  this w' = this w.
Proof.
  intros Hc Hr.
  assert (E : handlers_lc initialLayer w =
              (inr tt,
               {| canvas :=
                    Some (with_activeLayer (Some initialLayer)
                            (with_onwheel None (with_oncontextmenu None cv)));
                  this := this w;
                  moveTime := moveTime w;
                  calls :=
                    ((calls w ++ teardown_calls initialLayer)
                     ++ [CreateEmbeddedEntity "MeasuredTemplate"
                           (data (this w))])%list |})).
  { unfold handlers_lc. unfold bind at 1. cbn [get].
    unfold canvas_ready. rewrite Hc, Hr. cbn [negb].
    unfold bind at 1. rewrite (handlers_rc_ready w cv initialLayer Hc Hr).
    reflexivity. }
  cbv zeta. unfold exec. rewrite E. cbn [fst snd calls canvas this].
  split; [reflexivity |]. split; [now rewrite <- app_assoc |].
  split; [| reflexivity].
  eexists. split; [reflexivity |]. split; reflexivity.
Qed.

Lemma confirm_teardown_then_create_witness :
  calls (exec (handlers_lc tokens_layer)
           (world_of (Some square_canvas) burst_template))
  = (teardown_calls tokens_layer
     ++ [CreateEmbeddedEntity "MeasuredTemplate" (data burst_template)])%list.
Proof.
  apply (confirm_teardown_then_create
           (world_of (Some square_canvas) burst_template) square_canvas
           tokens_layer eq_refl eq_refl).
Defined.

(** C7 as stated fails: in the calls of a confirmation the creation call is
    the last one, at position 6, after the whole teardown, which starts at
    position 0; it does not come first. *)
Lemma confirm_creates_last :
  let cs := calls (exec (handlers_lc tokens_layer)
                     (world_of (Some square_canvas) burst_template)) in
  index_of is_create cs = Some 6%nat /\
  index_of is_teardown cs = Some 0%nat /\
  List.length cs = 7%nat /\
  ~ (forall i j, index_of is_create cs = Some i ->
                 index_of is_teardown cs = Some j -> (i < j)%nat).
Proof.
  cbv zeta. split; [reflexivity |]. split; [reflexivity |].
  split; [reflexivity |].
  intros H. specialize (H 6%nat 0%nat eq_refl eq_refl). lia.
Qed.

(** ** The deployable sheet *)

Lemma assign_same (st : Sheet.Store) (o : Sheet.Ref) (f : string)
    (v : Sheet.Value) :
  Sheet.assign st o f v o f = v.
Proof.
  unfold Sheet.assign. now rewrite Nat.eqb_refl, String.eqb_refl.
Qed.

Lemma assign_other (st : Sheet.Store) (o o' : Sheet.Ref) (f f' : string)
    (v : Sheet.Value) :
  (o', f') <> (o, f) -> Sheet.assign st o f v o' f' = st o' f'.
Proof.
  intros Hne. unfold Sheet.assign.
  destruct (Nat.eqb_spec o' o) as [-> |]; [| reflexivity].
  destruct (String.eqb_spec f' f) as [-> |]; [| reflexivity].
  now contradiction Hne.
Qed.

Lemma is_empty_string_spec (v : Sheet.Value) :
  Sheet.is_empty_string v = true <-> v = Sheet.VString "".
Proof.
  destruct v as [| s | r | n]; cbn; split; try discriminate.
  - intros H. apply String.eqb_eq in H. now subst.
  - intros H. injection H as ->. reflexivity.
Qed.

(** C8: [getData] returns the object it got.  When the [name] of its [data]
    object is the empty string, that name becomes the actor's name; when it
    is anything else it is left as it was; and no other property of any
    object of the render model changes. *)
Theorem getData_name_default (d : Sheet.SheetData) (st : Sheet.Store) :
  let d' := fst (Sheet.getData d st) in
  let st' := snd (Sheet.getData d st) in
  d' = d /\
  (st (Sheet.data d) "name" = Sheet.VString "" ->
   st' (Sheet.data d) "name" = st (Sheet.actor d) "name") /\
  (st (Sheet.data d) "name" <> Sheet.VString "" ->
   st' (Sheet.data d) "name" = st (Sheet.data d) "name") /\
  (forall o f, (o, f) <> (Sheet.data d, "name") -> st' o f = st o f).
Proof.
  cbv zeta. unfold Sheet.getData.
  destruct (Sheet.is_empty_string (st (Sheet.data d) "name")) eqn:E;
    cbn [fst snd].
  - split; [reflexivity |]. split; [intros _; apply assign_same |].
    split.
    + intros Hne. apply is_empty_string_spec in E. contradiction.
    + intros o f Hne. now apply assign_other.
  - split; [reflexivity |]. split.
    + intros He. apply is_empty_string_spec in He. congruence.
    + split; reflexivity.
Qed.

Lemma getData_name_default_witness :
  snd (Sheet.getData drone_sheet (drone_store "")) 2%nat "name"
  = Sheet.VString "Drone" /\
  snd (Sheet.getData drone_sheet (drone_store "Turret")) 2%nat "name"
  = Sheet.VString "Turret" /\
  snd (Sheet.getData drone_sheet (drone_store "")) 2%nat "hp"
  = Sheet.VOther 5.
Proof.
  destruct (getData_name_default drone_sheet (drone_store ""))
    as [_ [Hblank [_ Hrest]]].
  destruct (getData_name_default drone_sheet (drone_store "Turret"))
    as [_ [_ [Hkept _]]].
  split; [| split].
  - apply Hblank. reflexivity.
  - apply Hkept. cbn. discriminate.
  - apply Hrest. discriminate.
Defined.

(** * Further properties *)

(** ** Construction, continued *)

(** X1: [fromRange] builds a template exactly when the canvas is there and
    ready and the type is one of the four supported ones; in every other
    case it returns null. *)
Theorem fromRange_Some_iff (c : option Canvas) (u : User) (type : string)
    (val : float) :
  (exists tpl, fromRange c u type val = Some tpl)
  <-> (canvas_ready c = true /\ supported type).
Proof.
  split.
  - intros [tpl H].
    destruct (fromRange_Some_inv c u type val tpl H) as [cv [s [-> [Hr Hs]]]].
    split; [exact Hr |]. apply shape_of_type_supported. congruence.
  - intros [Hr Hs]. destruct c as [cv |]; [| discriminate Hr].
    apply shape_of_type_supported in Hs.
    destruct (shape_of_type type) as [s |] eqn:E; [| congruence].
    rewrite (fromRange_ready cv u type val s Hr E). eexists. reflexivity.
Qed.

Lemma getBurstDistance_other_sizes (w : World) (cv : Canvas) (size : float) :
  canvas w = Some cv -> ready cv = true ->
  (size =? 2)%float = false ->
  (size =? 3)%float = false ->
  (size =? 4)%float = false ->
  getBurstDistance size w
  = (inr ((rval (range (this w)) + 0.1)
          * (if (1 <? gtype (grid cv))%Z then Num.sqrt3_half else 1))%float,
     w).
Proof.
  intros Hc Hr H2 H3 H4. unfold getBurstDistance.
  rewrite (guarded_ready _ w cv Hc Hr). cbn -[PrimFloat.eqb PrimFloat.ltb].
  rewrite H2, H3, H4. now destruct (1 <? gtype (grid cv)).
Qed.

(** X2: a footprint that is none of 2, 3 and 4 (a single cell, half a cell, five
    cells) gets no compensation: the burst distance is [(val + 0.1) * scale],
    with scale sqrt(3)/2 on a hexagonal grid and 1 otherwise. *)
Theorem getBurstDistance_uncompensated (w : World) (cv : Canvas)
    (size : float) :
  canvas w = Some cv -> ready cv = true ->
  (size =? 2)%float = false ->
  (size =? 3)%float = false ->
  (size =? 4)%float = false ->
  (hexagonal (grid cv) ->
   getBurstDistance size w
   = (inr ((rval (range (this w)) + 0.1) * (PrimFloat.sqrt 3 / 2))%float,
      w)) /\
  (~ hexagonal (grid cv) ->
   getBurstDistance size w
   = (inr ((rval (range (this w)) + 0.1) * 1)%float, w)).
Proof.
  intros Hc Hr H2 H3 H4.
  rewrite (getBurstDistance_other_sizes w cv size Hc Hr H2 H3 H4).
  split; intros Hx.
  - now rewrite (proj1 (hexagonal_ltb (grid cv)) Hx).
  - now rewrite (proj2 (hexagonal_ltb (grid cv)) Hx).
Qed.

Lemma getBurstDistance_uncompensated_witness :
  getBurstDistance 0.5%float (world_of (Some hex_canvas) burst_template)
  = (inr ((3 + 0.1) * Num.sqrt3_half)%float,
     world_of (Some hex_canvas) burst_template).
Proof.
  apply (getBurstDistance_uncompensated
           (world_of (Some hex_canvas) burst_template) hex_canvas 0.5%float
           eq_refl eq_refl eq_refl eq_refl eq_refl).
  unfold hexagonal. cbn. lia.
Defined.

(** X3: the distance a template is built with is the burst distance of an
    uncompensated footprint: [fromRange] and [getBurstDistance] use the same
    value and, on integer grid codes, the same scale. *)
Theorem initial_distance_is_plain_burst (cv : Canvas) (u : User)
    (type : string) (val : float) (tpl : WeaponRangeTemplate) (w : World)
    (size : float) :
  fromRange (Some cv) u type val = Some tpl ->
  canvas w = Some cv ->
  range (this w) = range tpl ->
  (size =? 2)%float = false ->
  (size =? 3)%float = false ->
  (size =? 4)%float = false ->
  getBurstDistance size w = (inr (distance (data tpl)), w).
Proof.
  intros H Hc Hrg H2 H3 H4.
  destruct (fromRange_Some_inv _ _ _ _ _ H) as [cv0 [s [E [Hr Hs]]]].
  injection E as <-.
  rewrite (getBurstDistance_other_sizes w cv size Hc Hr H2 H3 H4).
  rewrite (fromRange_ready cv u type val s Hr Hs) in H.
  injection H as <-. rewrite Hrg. cbn [range rval data distance].
  destruct (Z.ltb_spec 1 (gtype (grid cv)));
    destruct (Z.leb_spec 2 (gtype (grid cv))); try lia; reflexivity.
Qed.

Lemma initial_distance_is_plain_burst_witness :
  exists tpl,
    fromRange (Some hex_canvas) some_user "Burst" 3%float = Some tpl /\
    getBurstDistance 1%float (world_of (Some hex_canvas) tpl)
    = (inr (distance (data tpl)), world_of (Some hex_canvas) tpl).
Proof.
  destruct (fromRange (Some hex_canvas) some_user "Burst" 3%float)
    as [tpl |] eqn:E; [| discriminate E].
  exists tpl. split; [reflexivity |].
  apply (initial_distance_is_plain_burst hex_canvas some_user "Burst" 3%float
           tpl (world_of (Some hex_canvas) tpl) 1%float E);
    reflexivity.
Defined.

(** ** The order of distances *)

Lemma SFltb_irrefl (a : spec_float) : SFltb a a = false.
Proof.
  unfold SFltb, SFcompare.
  destruct a as [s | s | | s m e]; try destruct s; try reflexivity;
    rewrite Z.compare_refl;
    change (Pos.compare_cont Eq m m) with (Pos.compare m m);
    rewrite Pos.compare_refl; reflexivity.
Qed.

Lemma SFltb_trans (a b c : spec_float) :
  SFltb a b = true -> SFltb b c = true -> SFltb a c = true.
Proof.
  unfold SFltb, SFcompare.
  destruct a as [sa | sa | | sa ma ea]; destruct b as [sb | sb | | sb mb eb];
    destruct c as [sc | sc | | sc mc ec];
    try destruct sa; try destruct sb; try destruct sc;
    try discriminate; try reflexivity;
    change (Pos.compare_cont Eq) with Pos.compare;
    repeat match goal with
           | |- context [Z.compare ?a ?b] => destruct (Z.compare_spec a b)
           | |- context [Pos.compare ?a ?b] => destruct (Pos.compare_spec a b)
           end;
    cbn; try discriminate; try reflexivity; intros; try lia.
Qed.

Lemma ltb_irrefl (a : float) : (a <? a)%float = false.
Proof.
  rewrite ltb_spec. apply SFltb_irrefl.
Qed.

Lemma ltb_trans (a b c : float) :
  (a <? b)%float = true -> (b <? c)%float = true -> (a <? c)%float = true.
Proof.
  rewrite !ltb_spec. apply SFltb_trans.
Qed.

Lemma ltb_asym (a b : float) :
  (a <? b)%float = true -> (b <? a)%float = false.
Proof.
  intros H. destruct (b <? a)%float eqn:E; [| reflexivity].
  rewrite <- (ltb_irrefl a). symmetry. exact (ltb_trans a b a H E).
Qed.

(** ** The token under the pointer *)

Section Closest.

Variables (w : World) (cv : Canvas) (p : Point).
Hypothesis Hc : canvas w = Some cv.
Hypothesis Hr : ready cv = true.

Let D (tk : Token) : float := measureDistance (grid cv) p (tk_center tk).

Lemma closer_ready (init : option Token) (tk : Token) :
  closer p init tk w =
  (inr (if negb (tk_visible tk) then init
        else match init with
             | None => Some tk
             | Some r0 => if (D tk <? D r0)%float then Some tk else init
             end), w).
Proof.
  unfold closer. rewrite (guarded_ready _ w cv Hc Hr).
  destruct (tk_visible tk); cbn; [| reflexivity].
  destruct init as [r0 |]; [| reflexivity].
  unfold D. now destruct (PrimFloat.ltb _ _).
Qed.

(** What the [reduce] of [snapToToken] leaves: the initial value or a visible
    token strictly closer than it, than which no visible token of the list
    is strictly closer; null only if it started from null and every token is
    hidden. *)
Lemma reduce_closer_best (l : list Token) :
  forall init, exists r,
    reduce (closer p) l init w = (inr r, w) /\
    (r = init \/
     exists r0, r = Some r0 /\ In r0 l /\ tk_visible r0 = true /\
                forall i0, init = Some i0 -> (D r0 <? D i0)%float = true) /\
    (forall r0, r = Some r0 ->
                forall tk, In tk l -> tk_visible tk = true ->
                           (D tk <? D r0)%float = false) /\
    (r = None ->
     init = None /\ forall tk, In tk l -> tk_visible tk = false).
Proof.
  induction l as [| tk l' IH]; intros init.
  - exists init. split; [reflexivity |]. split; [now left |].
    split; [intros r0 _ tk [] |].
    intros ->. split; [reflexivity | intros tk []].
  - cbn [reduce]. unfold bind at 1. rewrite closer_ready.
    destruct (tk_visible tk) eqn:V; cbn [negb].
    + (* a visible token *)
      destruct init as [i0 |].
      * destruct (D tk <? D i0)%float eqn:L.
        -- destruct (IH (Some tk)) as [r [E [P1 [P2 P3]]]].
           exists r. split; [exact E |]. split; [| split].
           ++ right. destruct P1 as [-> | [r0 [-> [Hin [Hv Hlt]]]]].
              ** exists tk. repeat split; auto; [now left |].
                 intros i1 Hi. injection Hi as <-. exact L.
              ** exists r0. repeat split; auto; [now right |].
                 intros i1 Hi. injection Hi as <-.
                 exact (ltb_trans _ _ _ (Hlt tk eq_refl) L).
           ++ intros r0 Er tk' [<- | Hin] Hv.
              ** destruct P1 as [-> | [r1 [-> [_ [_ Hlt]]]]].
                 --- injection Er as <-. apply ltb_irrefl.
                 --- injection Er as <-. apply ltb_asym. now apply Hlt.
              ** now apply (P2 r0 Er tk').
           ++ intros Er. destruct (P3 Er) as [Habs _]. discriminate Habs.
        -- destruct (IH (Some i0)) as [r [E [P1 [P2 P3]]]].
           exists r. split; [exact E |]. split; [| split].
           ++ destruct P1 as [-> | [r0 [-> [Hin [Hv Hlt]]]]]; [now left |].
              right. exists r0. repeat split; auto. now right.
           ++ intros r0 Er tk' [<- | Hin] Hv.
              ** destruct P1 as [-> | [r1 [-> [_ [_ Hlt]]]]].
                 --- injection Er as <-. exact L.
                 --- injection Er as <-.
                     destruct (D tk <? D r1)%float eqn:L'; [| reflexivity].
                     rewrite <- L. symmetry.
                     exact (ltb_trans _ _ _ L' (Hlt i0 eq_refl)).
              ** now apply (P2 r0 Er tk').
           ++ intros Er. destruct (P3 Er) as [Habs _]. discriminate Habs.
      * destruct (IH (Some tk)) as [r [E [P1 [P2 P3]]]].
        exists r. split; [exact E |]. split; [| split].
        -- right. destruct P1 as [-> | [r0 [-> [Hin [Hv Hlt]]]]].
           ++ exists tk. repeat split; auto; [now left | discriminate].
           ++ exists r0. repeat split; auto; [now right | discriminate].
        -- intros r0 Er tk' [<- | Hin] Hv.
           ++ destruct P1 as [-> | [r1 [-> [_ [_ Hlt]]]]].
              ** injection Er as <-. apply ltb_irrefl.
              ** injection Er as <-. apply ltb_asym. now apply Hlt.
           ++ now apply (P2 r0 Er tk').
        -- intros Er. destruct (P3 Er) as [Habs _]. discriminate Habs.
    + (* a hidden token is skipped *)
      destruct (IH init) as [r [E [P1 [P2 P3]]]].
      exists r. split; [exact E |]. split; [| split].
      * destruct P1 as [-> | [r0 [-> [Hin [Hv Hlt]]]]]; [now left |].
        right. exists r0. repeat split; auto. now right.
      * intros r0 Er tk' [<- | Hin] Hv; [congruence |].
        now apply (P2 r0 Er tk').
      * intros Er. destruct (P3 Er) as [Hi Hh]. split; [exact Hi |].
        intros tk' [<- | Hin]; [exact V | now apply Hh].
Qed.

End Closest.

(** X4: when some visible token's box strictly contains the pointer,
    [snapToToken] returns the center of such a token, than which no other
    visible token containing the pointer is strictly closer to the pointer
    by [measureDistance], and sets the distance to the burst distance of
    that token's footprint. *)
Theorem snapToToken_closest (w : World) (cv : Canvas) (p : Point) :
  canvas w = Some cv -> ready cv = true ->
  (exists tk, In tk (placeables cv) /\ tk_visible tk = true /\
              cursor_inside p tk = true) ->
  exists tk d,
    In tk (placeables cv) /\ tk_visible tk = true /\
    cursor_inside p tk = true /\
    getBurstDistance (tk_width tk) w = (inr d, w) /\
    snapToToken p w
    = (inr (tk_center tk), exec (set_data (with_distance d)) w) /\
    forall tk', In tk' (placeables cv) -> tk_visible tk' = true ->
                cursor_inside p tk' = true ->
                (measureDistance (grid cv) p (tk_center tk')
                 <? measureDistance (grid cv) p (tk_center tk))%float = false.
Proof.
  intros Hc Hr [tk0 [Hin0 [Hv0 Hins0]]].
  destruct (reduce_closer_best w cv p Hc Hr
              (filter (cursor_inside p) (placeables cv)) None)
    as [r [E [P1 [P2 P3]]]].
  destruct r as [tk |].
  - destruct P1 as [Habs | [r0 [Er [Hin [Hv _]]]]]; [discriminate Habs |].
    injection Er as <-. apply filter_In in Hin. destruct Hin as [Hin Hins].
    destruct (getBurstDistance_ready w cv (tk_width tk) Hc Hr) as [d Hd].
    exists tk, d. repeat split; auto.
    + unfold snapToToken. rewrite (guarded_ready _ w cv Hc Hr).
      unfold bind at 1. rewrite E. unfold bind at 1. rewrite Hd. reflexivity.
    + intros tk' Hin' Hv' Hins'. apply (P2 tk eq_refl tk'); [| exact Hv'].
      apply filter_In. now split.
  - destruct (P3 eq_refl) as [_ Hh].
    assert (Hf : In tk0 (filter (cursor_inside p) (placeables cv)))
      by (apply filter_In; now split).
    rewrite (Hh tk0 Hf) in Hv0. discriminate Hv0.
Qed.

Lemma snapToToken_closest_witness :
  exists tk d,
    In tk (placeables crowded_canvas) /\ tk_visible tk = true /\
    cursor_inside {| px := 50%float; py := 50%float |} tk = true /\
    getBurstDistance (tk_width tk)
      (world_of (Some crowded_canvas) burst_template)
    = (inr d, world_of (Some crowded_canvas) burst_template) /\
    snapToToken {| px := 50%float; py := 50%float |}
      (world_of (Some crowded_canvas) burst_template)
    = (inr (tk_center tk),
       exec (set_data (with_distance d))
         (world_of (Some crowded_canvas) burst_template)) /\
    forall tk', In tk' (placeables crowded_canvas) ->
                tk_visible tk' = true ->
                cursor_inside {| px := 50%float; py := 50%float |} tk' = true ->
                (measureDistance (grid crowded_canvas)
                   {| px := 50%float; py := 50%float |} (tk_center tk')
                 <? measureDistance (grid crowded_canvas)
                      {| px := 50%float; py := 50%float |} (tk_center tk))%float
                = false.
Proof.
  apply (snapToToken_closest (world_of (Some crowded_canvas) burst_template)
           crowded_canvas {| px := 50%float; py := 50%float |}
           eq_refl eq_refl).
  exists big_token. split; [now left |]. split; reflexivity.
Defined.

(** ** Starting and ending a preview *)

Lemma activatePreviewListeners_ready (w : World) (cv : Canvas)
    (initialLayer : Layer) :
  canvas w = Some cv -> ready cv = true ->
  activatePreviewListeners initialLayer w =
  (inr tt,
   {| canvas := Some (with_onwheel (Some mw)
                        (with_oncontextmenu (Some rc) cv));
      this := this w;
      moveTime := 0;
      calls := (calls w
                ++ [StageOn "mousemove" mm; StageOn "mousedown" lc;
                    SetOnContextMenu (Some rc); SetOnWheel (Some mw)])%list |}).
Proof.
  intros Hc Hr. unfold activatePreviewListeners.
  unfold bind at 1. cbn [set_moveTime]. unfold bind at 1. cbn [get canvas].
  unfold canvas_ready. rewrite Hc, Hr. cbn [negb].
  unfold bind, call, set_oncontextmenu, set_onwheel, set_canvas, bind, call;
    cbn.
  rewrite ?Hc. cbn. rewrite <- !app_assoc. reflexivity.
Qed.

Lemma handlers_lc_ready (w : World) (cv : Canvas) (initialLayer : Layer) :
  canvas w = Some cv -> ready cv = true ->
  handlers_lc initialLayer w =
  (inr tt,
   {| canvas := Some (with_activeLayer (Some initialLayer)
                        (with_onwheel None (with_oncontextmenu None cv)));
      this := this w;
      moveTime := moveTime w;
      calls := ((calls w ++ teardown_calls initialLayer)
                ++ [CreateEmbeddedEntity "MeasuredTemplate"
                      (data (this w))])%list |}).
Proof.
  intros Hc Hr. unfold handlers_lc. unfold bind at 1. cbn [get].
  unfold canvas_ready. rewrite Hc, Hr. cbn [negb].
  unfold bind at 1. rewrite (handlers_rc_ready w cv initialLayer Hc Hr).
  reflexivity.
Qed.

(** X5: [drawPreview] does nothing at all, and returns at once, when the canvas
    is missing or not ready or has no active layer: nothing is drawn and no
    listener is installed. *)
Theorem drawPreview_idle (w : World) :
  canvas_ready (canvas w) = false \/
  (exists cv, canvas w = Some cv /\ activeLayer cv = None) ->
  drawPreview w = (inr None, w).
Proof.
  unfold drawPreview, bind, get, canvas_ready.
  intros [H | [cv [Hc Ha]]].
  - destruct (canvas w) as [cv |]; [| reflexivity]. now rewrite H.
  - rewrite Hc, Ha. now destruct (ready cv).
Qed.

Lemma drawPreview_idle_witness :
  drawPreview (world_of (Some unready_canvas) burst_template)
  = (inr None, world_of (Some unready_canvas) burst_template) /\
  drawPreview (world_of None burst_template)
  = (inr None, world_of None burst_template).
Proof.
  split; apply drawPreview_idle; left; reflexivity.
Defined.

Lemma drawPreview_ready (w : World) (cv : Canvas) (l : Layer) :
  canvas w = Some cv -> ready cv = true -> activeLayer cv = Some l ->
  drawPreview w =
  (inr (Some l),
   {| canvas := Some (with_onwheel (Some mw)
                        (with_oncontextmenu (Some rc)
                           (with_activeLayer (Some TemplateLayer) cv)));
      this := this w;
      moveTime := 0;
      calls := (calls w ++ preview_calls)%list |}).
Proof.
  intros Hc Hr Ha. unfold drawPreview. unfold bind at 1. cbn [get].
  rewrite Hc, Hr, Ha. cbn [negb].
  unfold bind at 1. cbn [call].
  unfold bind at 1. unfold activate at 1. unfold bind at 1.
  cbn [set_canvas call canvas this moveTime calls]. rewrite Hc.
  cbn [option_map].
  unfold bind at 1. cbn [call canvas this moveTime calls].
  unfold bind at 1.
  erewrite activatePreviewListeners_ready; [| reflexivity | exact Hr].
  cbn. rewrite <- !app_assoc. reflexivity.
Qed.

(** X6: on a ready canvas with an active layer, [drawPreview] draws the
    template, activates the template layer, which becomes the active layer,
    and adds the template to its preview, then installs the four listeners,
    in that order: "mousemove" and "mousedown" on the stage, the
    context-menu and wheel handlers on the view.  It returns the layer that
    was active before, the throttle time starts at 0, and the template
    itself is untouched. *)
Theorem drawPreview_starts (w : World) (cv : Canvas) (l : Layer) :
  canvas w = Some cv -> ready cv = true -> activeLayer cv = Some l ->
  let w' := exec drawPreview w in
  fst (drawPreview w) = inr (Some l) /\
  calls w' =
  (calls w ++ [Draw; LayerActivate TemplateLayer; PreviewAddChild;
               StageOn "mousemove" mm; StageOn "mousedown" lc;
               SetOnContextMenu (Some rc); SetOnWheel (Some mw)])%list /\
  stage_listeners preview_calls [] = [("mousemove", mm); ("mousedown", lc)] /\
  (exists cv', canvas w' = Some cv' /\
               activeLayer cv' = Some TemplateLayer /\
               oncontextmenu cv' = Some rc /\ onwheel cv' = Some mw) /\
  moveTime w' = 0 /\ this w' = this w.
Proof.
  intros Hc Hr Ha. cbv zeta. unfold exec.
  rewrite (drawPreview_ready w cv l Hc Hr Ha). cbn [fst snd].
  repeat split.
  eexists. repeat split.
Qed.

Lemma drawPreview_starts_witness :
  fst (drawPreview (world_of (Some square_canvas) burst_template))
  = inr (Some tokens_layer) /\
  calls (exec drawPreview (world_of (Some square_canvas) burst_template))
  = preview_calls.
Proof.
  destruct (drawPreview_starts (world_of (Some square_canvas) burst_template)
              square_canvas tokens_layer eq_refl eq_refl eq_refl)
    as [Hl [Hcs _]].
  split; [exact Hl | exact Hcs].
Defined.

(** X7: a preview that is started and then cancelled or confirmed leaves no
    trace but the calls it made: both view handlers are null again, the
    stage listeners it added are all removed, the layer activated last is
    the one that was active before, and the template and the rest of the
    canvas are as they were.  Cancelling creates nothing; confirming makes
    one creation call, with the template's data. *)
Theorem preview_round_trip (w : World) (cv : Canvas) (l : Layer) :
  canvas w = Some cv -> ready cv = true -> activeLayer cv = Some l ->
  let started := exec drawPreview w in
  let cancelled := exec (handlers_rc l) started in
  let confirmed := exec (handlers_lc l) started in
  canvas cancelled
  = Some (with_onwheel None (with_oncontextmenu None cv)) /\
  canvas confirmed = canvas cancelled /\
  this cancelled = this w /\ this confirmed = this w /\
  calls cancelled = (calls w ++ preview_calls ++ teardown_calls l)%list /\
  calls confirmed
  = (calls cancelled
     ++ [CreateEmbeddedEntity "MeasuredTemplate" (data (this w))])%list /\
  stage_listeners (preview_calls ++ teardown_calls l) [] = [] /\
  index_of is_create (preview_calls ++ teardown_calls l) = None /\
  last (calls cancelled) Draw = LayerActivate l.
Proof.
  intros Hc Hr Ha. cbv zeta.
  assert (E1 : exec drawPreview w =
               {| canvas := Some (with_onwheel (Some mw)
                                    (with_oncontextmenu (Some rc)
                                       (with_activeLayer (Some TemplateLayer)
                                          cv)));
                  this := this w; moveTime := 0;
                  calls := (calls w ++ preview_calls)%list |}).
  { unfold exec. now rewrite (drawPreview_ready w cv l Hc Hr Ha). }
  rewrite E1. unfold exec.
  erewrite handlers_rc_ready; [| reflexivity | exact Hr].
  erewrite handlers_lc_ready; [| reflexivity | exact Hr].
  cbn [snd canvas this calls].
  split.
  { unfold with_activeLayer, with_onwheel, with_oncontextmenu. cbn.
    now rewrite Ha. }
  repeat split.
  - now rewrite <- app_assoc.
  - unfold teardown_calls.
    change [PreviewRemoveChildren; StageOff "mousemove" mm;
            StageOff "mousedown" lc; SetOnContextMenu None; SetOnWheel None;
            LayerActivate l]
      with ([PreviewRemoveChildren; StageOff "mousemove" mm;
             StageOff "mousedown" lc; SetOnContextMenu None; SetOnWheel None]
            ++ [LayerActivate l])%list.
    rewrite app_assoc. apply last_last.
Qed.

Lemma preview_round_trip_witness :
  calls (exec (handlers_rc tokens_layer)
           (exec drawPreview (world_of (Some square_canvas) blast_template)))
  = (preview_calls ++ teardown_calls tokens_layer)%list /\
  this (exec (handlers_lc tokens_layer)
          (exec drawPreview (world_of (Some square_canvas) blast_template)))
  = blast_template.
Proof.
  destruct (preview_round_trip (world_of (Some square_canvas) blast_template)
              square_canvas tokens_layer eq_refl eq_refl eq_refl)
    as [_ [_ [_ [Ht [Hcs _]]]]].
  split; [exact Hcs | exact Ht].
Defined.

(** ** Handlers on a canvas that is not ready *)

(** X8: on a canvas that is missing or not ready, the cancel, confirm and wheel
    handlers return without doing anything: no call is made, nothing is
    created, and the wheel handler does not even stop the event. *)
Theorem handlers_unready_noop (SQUARE : Z) (w : World) (l : Layer)
    (ev : WheelEvent) :
  canvas_ready (canvas w) = false ->
  handlers_rc l w = (inr tt, w) /\
  handlers_lc l w = (inr tt, w) /\
  handlers_mw SQUARE ev w = (inr tt, w).
Proof.
  intros H. unfold handlers_rc, handlers_lc, handlers_mw, bind, get.
  rewrite H. cbn [negb]. repeat split.
  unfold canvas_ready in H. destruct (canvas w) as [cv |]; [| reflexivity].
  now rewrite H.
Qed.

Lemma handlers_unready_noop_witness :
  handlers_lc tokens_layer (world_of (Some unready_canvas) burst_template)
  = (inr tt, world_of (Some unready_canvas) burst_template).
Proof.
  apply (handlers_unready_noop 1
           (world_of (Some unready_canvas) burst_template) tokens_layer
           {| ctrlKey := true; shiftKey := false; deltaY := 1%float |}
           eq_refl).
Defined.

Lemma handlers_mm_throws (w : World) (ev : MoveEvent) :
  canvas_ready (canvas w) = false ->
  20 < now ev - moveTime w ->
  handlers_mm ev w = (inl CanvasNotSetUp, exec (call StopPropagation) w).
Proof.
  intros H Hlt. unfold handlers_mm. unfold bind at 1. cbn [call].
  unfold bind at 1. cbn [get moveTime this].
  destruct (Z.leb_spec (now ev - moveTime w) 20); [lia |].
  unfold bind at 1.
  destruct (isBurst (this w)).
  - unfold snapToToken. rewrite guarded_unready; [reflexivity | exact H].
  - unfold snapToCenter. rewrite guarded_unready; [reflexivity | exact H].
Qed.

(** X9: on a canvas that is not ready, a move that passes the throttle stops the
    event and then throws "Canvas not set up": the template is not moved,
    nothing is refreshed and the throttle time is not advanced, so the next
    move is attempted again.  A throttled move returns as usual. *)
Theorem handlers_mm_unready (w : World) (ev : MoveEvent) :
  canvas_ready (canvas w) = false ->
  let w' := exec (handlers_mm ev) w in
  (20 < now ev - moveTime w -> fst (handlers_mm ev w) = inl CanvasNotSetUp) /\
  (now ev - moveTime w <= 20 -> fst (handlers_mm ev w) = inr tt) /\
  this w' = this w /\ moveTime w' = moveTime w /\
  refreshes w' = refreshes w /\
  calls w' = (calls w ++ [StopPropagation])%list.
Proof.
  intros H. cbv zeta. unfold exec.
  destruct (Z.leb_spec (now ev - moveTime w) 20) as [Hle | Hlt].
  - rewrite (handlers_mm_throttled w ev Hle). cbn.
    repeat split; try lia.
    unfold refreshes. cbn [calls]. rewrite refreshes_app. cbn. lia.
  - rewrite (handlers_mm_throws w ev H Hlt). cbn.
    repeat split; try lia.
    unfold refreshes. cbn [calls]. rewrite refreshes_app. cbn. lia.
Qed.

Lemma handlers_mm_unready_witness :
  fst (handlers_mm
         {| center := {| px := 50%float; py := 50%float |}; now := 1000 |}
         (world_of (Some unready_canvas) burst_template))
  = inl CanvasNotSetUp.
Proof.
  apply (handlers_mm_unready (world_of (Some unready_canvas) burst_template)
           {| center := {| px := 50%float; py := 50%float |}; now := 1000 |}
           eq_refl).
  cbn. lia.
Defined.

(** X10: after [drawPreview] the throttle time is 0, so the first pointer move is
    applied whenever the clock reads more than 20 ms. *)
Theorem first_move_applies (w : World) (cv : Canvas) (l : Layer)
    (ev : MoveEvent) :
  canvas w = Some cv -> ready cv = true -> activeLayer cv = Some l ->
  20 < now ev ->
  let started := exec drawPreview w in
  fst (handlers_mm ev started) = inr tt /\
  refreshes (exec (handlers_mm ev) started) = S (refreshes w) /\
  moveTime (exec (handlers_mm ev) started) = now ev.
Proof.
  intros Hc Hr Ha Hlt. cbv zeta.
  assert (E1 : exec drawPreview w =
               {| canvas := Some (with_onwheel (Some mw)
                                    (with_oncontextmenu (Some rc)
                                       (with_activeLayer (Some TemplateLayer)
                                          cv)));
                  this := this w; moveTime := 0;
                  calls := (calls w ++ preview_calls)%list |}).
  { unfold exec. now rewrite (drawPreview_ready w cv l Hc Hr Ha). }
  rewrite E1.
  edestruct handlers_mm_applied as [c [td [E _]]];
    [| | | unfold exec; rewrite E].
  - reflexivity.
  - exact Hr.
  - cbn. lia.
  - cbn [fst snd moveTime]. repeat split.
    unfold refreshes. cbn [calls]. rewrite !refreshes_app. cbn. lia.
Qed.

Lemma first_move_applies_witness :
  moveTime
    (exec (handlers_mm {| center := {| px := 50%float; py := 50%float |};
                          now := 1700000000000 |})
       (exec drawPreview (world_of (Some square_canvas) burst_template)))
  = 1700000000000.
Proof.
  apply (first_move_applies (world_of (Some square_canvas) burst_template)
           square_canvas tokens_layer
           {| center := {| px := 50%float; py := 50%float |};
              now := 1700000000000 |} eq_refl eq_refl eq_refl).
  cbn. lia.
Defined.

(** ** What a snap depends on *)

Lemma set_data_id (w : World) : exec (set_data (fun td => td)) w = w.
Proof.
  destruct w as [c [d b r] m cs]. reflexivity.
Qed.

Lemma reduce_closer_same (w1 w2 : World) (cv : Canvas) (p : Point)
    (l : list Token) :
  canvas w1 = Some cv -> canvas w2 = Some cv -> ready cv = true ->
  forall init, exists r,
    reduce (closer p) l init w1 = (inr r, w1) /\
    reduce (closer p) l init w2 = (inr r, w2).
Proof.
  intros Hc1 Hc2 Hr. induction l as [| tk l' IH]; intros init.
  - exists init. split; reflexivity.
  - cbn [reduce]. unfold bind.
    rewrite (closer_ready w1 cv p Hc1 Hr), (closer_ready w2 cv p Hc2 Hr).
    apply IH.
Qed.

Lemma getBurstDistance_same (w1 w2 : World) (cv : Canvas) (size : float) :
  canvas w1 = Some cv -> canvas w2 = Some cv -> ready cv = true ->
  range (this w1) = range (this w2) ->
  exists d,
    getBurstDistance size w1 = (inr d, w1) /\
    getBurstDistance size w2 = (inr d, w2).
Proof.
  intros Hc1 Hc2 Hr Hrg. unfold getBurstDistance.
  rewrite (guarded_ready _ w1 cv Hc1 Hr), (guarded_ready _ w2 cv Hc2 Hr).
  unfold bind, get, ret. rewrite Hrg. eexists. split; reflexivity.
Qed.

Lemma snapToToken_of_reduce (w : World) (cv : Canvas) (p : Point)
    (r : option Token) :
  canvas w = Some cv -> ready cv = true ->
  reduce (closer p) (filter (cursor_inside p) (placeables cv)) None w
  = (inr r, w) ->
  snapToToken p w =
  match r with
  | Some tk =>
      (d <- getBurstDistance (tk_width tk) ;;
       set_data (with_distance d) ;;; ret (tk_center tk)) w
  | None => (set_data (with_distance 0%float) ;;; snapToCenter p) w
  end.
Proof.
  intros Hc Hr E. unfold snapToToken. rewrite (guarded_ready _ w cv Hc Hr).
  unfold bind at 1. rewrite E. now destruct r.
Qed.

(** The point a snap returns and what it does to the distance depend on the
    canvas and on the template's range only. *)
Lemma snap_pair (w1 w2 : World) (cv : Canvas) (p : Point) (burst : bool) :
  canvas w1 = Some cv -> canvas w2 = Some cv -> ready cv = true ->
  range (this w1) = range (this w2) ->
  exists c g,
    (g = (fun td => td) \/ exists d, g = with_distance d) /\
    (if burst then snapToToken p else snapToCenter p) w1
    = (inr c, exec (set_data g) w1) /\
    (if burst then snapToToken p else snapToCenter p) w2
    = (inr c, exec (set_data g) w2).
Proof.
  intros Hc1 Hc2 Hr Hrg. destruct burst.
  - destruct (reduce_closer_same w1 w2 cv p
                (filter (cursor_inside p) (placeables cv)) Hc1 Hc2 Hr None)
      as [r [E1 E2]].
    rewrite (snapToToken_of_reduce w1 cv p r Hc1 Hr E1),
      (snapToToken_of_reduce w2 cv p r Hc2 Hr E2).
    destruct r as [tk |].
    + destruct (getBurstDistance_same w1 w2 cv (tk_width tk) Hc1 Hc2 Hr Hrg)
        as [d [D1 D2]].
      exists (tk_center tk), (with_distance d).
      split; [right; now exists d |].
      unfold bind at 1 3. rewrite D1, D2. split; reflexivity.
    + eexists. exists (with_distance 0%float).
      split; [right; now exists 0%float |].
      unfold bind. cbn [set_data]. split.
      * apply (snapToCenter_ready
                 (exec (set_data (with_distance 0)) w1) cv p);
          [exact Hc1 | exact Hr].
      * apply (snapToCenter_ready
                 (exec (set_data (with_distance 0)) w2) cv p);
          [exact Hc2 | exact Hr].
  - eexists. exists (fun td => td). split; [now left |].
    rewrite !set_data_id.
    rewrite (snapToCenter_ready w1 cv p Hc1 Hr),
      (snapToCenter_ready w2 cv p Hc2 Hr).
    split; reflexivity.
Qed.

(** Two moves at the same pointer and time, in worlds with the same canvas,
    burst flag and range, land on the same point and treat the distance the
    same way. *)
Lemma handlers_mm_pair (w1 w2 : World) (cv : Canvas) (ev : MoveEvent) :
  canvas w1 = Some cv -> canvas w2 = Some cv -> ready cv = true ->
  range (this w1) = range (this w2) ->
  isBurst (this w1) = isBurst (this w2) ->
  20 < now ev - moveTime w1 -> 20 < now ev - moveTime w2 ->
  exists c g,
    (g = (fun td => td) \/ exists d, g = with_distance d) /\
    handlers_mm ev w1 =
    (inr tt,
     {| canvas := canvas w1;
        this := {| data := with_position c (g (data (this w1)));
                   isBurst := isBurst (this w1);
                   range := range (this w1) |};
        moveTime := now ev;
        calls := (calls w1 ++ [StopPropagation; Refresh])%list |}) /\
    handlers_mm ev w2 =
    (inr tt,
     {| canvas := canvas w2;
        this := {| data := with_position c (g (data (this w2)));
                   isBurst := isBurst (this w2);
                   range := range (this w2) |};
        moveTime := now ev;
        calls := (calls w2 ++ [StopPropagation; Refresh])%list |}).
Proof.
  intros Hc1 Hc2 Hr Hrg Hb H1 H2.
  destruct (snap_pair (exec (call StopPropagation) w1)
              (exec (call StopPropagation) w2) cv (center ev)
              (isBurst (this w1)) Hc1 Hc2 Hr Hrg)
    as [c [g [Hg [E1 E2]]]].
  exists c, g. split; [exact Hg |].
  unfold handlers_mm. split.
  - unfold bind at 1. cbn [call]. unfold bind at 1. cbn [get moveTime this].
    destruct (Z.leb_spec (now ev - moveTime w1) 20); [lia |].
    unfold bind at 1. unfold exec in E1. cbn [call snd] in E1. rewrite E1.
    unfold bind, set_data, call, set_moveTime; cbn.
    rewrite <- app_assoc. reflexivity.
  - unfold bind at 1. cbn [call]. unfold bind at 1. cbn [get moveTime this].
    destruct (Z.leb_spec (now ev - moveTime w2) 20); [lia |].
    unfold bind at 1. rewrite <- Hb. unfold exec in E2. cbn [call snd] in E2.
    rewrite E2.
    unfold bind, set_data, call, set_moveTime; cbn.
    rewrite <- app_assoc, <- ?Hb. reflexivity.
Qed.

(** ** The throttle *)

(** An applied move puts the template on the point its snap returns, with
    the data as the snap leaves them. *)
Lemma handlers_mm_snap (w : World) (cv : Canvas) (ev : MoveEvent) :
  canvas w = Some cv -> ready cv = true ->
  20 < now ev - moveTime w ->
  exists c,
    fst ((if isBurst (this w) then snapToToken (center ev)
          else snapToCenter (center ev)) w) = inr c /\
    handlers_mm ev w =
    (inr tt,
     {| canvas := canvas w;
        this :=
          {| data :=
               with_position c
                 (data (this (exec (if isBurst (this w)
                                    then snapToToken (center ev)
                                    else snapToCenter (center ev)) w)));
             isBurst := isBurst (this w);
             range := range (this w) |};
        moveTime := now ev;
        calls := (calls w ++ [StopPropagation; Refresh])%list |}).
Proof.
  intros Hc Hr Hlt.
  destruct (snap_pair (exec (call StopPropagation) w) w cv (center ev)
              (isBurst (this w)) Hc Hc Hr eq_refl)
    as [c [g [_ [E0 Ew]]]].
  exists c. unfold exec at 1. rewrite Ew. split; [reflexivity |].
  unfold handlers_mm.
  unfold bind at 1. cbn [call]. unfold bind at 1. cbn [get moveTime this].
  destruct (Z.leb_spec (now ev - moveTime w) 20); [lia |].
  unfold bind at 1. unfold exec in E0. cbn [call snd] in E0. rewrite E0.
  unfold bind, set_data, call, set_moveTime, exec; cbn.
  rewrite <- app_assoc. reflexivity.
Qed.

(** C4, as the code has it: of two consecutive move events, the first of
    which is applied, the second is a no-op (template and throttle time
    unchanged, no refresh) when it arrives 20 ms or less after the first,
    and is applied too when it arrives more than 20 ms after.  An applied
    move snaps (to a token for a burst, to the cell center otherwise), puts
    the template on the point the snap returns, refreshes once and records
    its time. *)
Theorem move_throttle (w : World) (cv : Canvas) (e1 e2 : MoveEvent) :
  canvas w = Some cv -> ready cv = true ->
  20 < now e1 - moveTime w ->
  let snap := fun e : MoveEvent =>
                if isBurst (this w) then snapToToken (center e)
                else snapToCenter (center e) in
  let w1 := exec (handlers_mm e1) w in
  let w2 := exec (handlers_mm e2) w1 in
  (exists c1,
     fst (snap e1 w) = inr c1 /\
     data (this w1) = with_position c1 (data (this (exec (snap e1) w)))) /\
  refreshes w1 = S (refreshes w) /\
  moveTime w1 = now e1 /\
  (now e2 - now e1 <= 20 ->
   refreshes w2 = refreshes w1 /\ this w2 = this w1 /\
   moveTime w2 = moveTime w1) /\
  (20 < now e2 - now e1 ->
   (exists c2,
      fst (snap e2 w1) = inr c2 /\
      data (this w2) = with_position c2 (data (this (exec (snap e2) w1)))) /\
   refreshes w2 = S (refreshes w1) /\ moveTime w2 = now e2).
Proof.
  intros Hc Hr H1. cbv zeta.
  destruct (handlers_mm_snap w cv e1 Hc Hr H1) as [c1 [S1 E1]].
  apply (f_equal snd) in E1. cbn [snd] in E1.
  fold (exec (handlers_mm e1) w) in E1.
  set (w1 := exec (handlers_mm e1) w) in *.
  assert (Hm1 : moveTime w1 = now e1) by now rewrite E1.
  assert (Hc1 : canvas w1 = Some cv) by now rewrite E1.
  assert (Hb1 : isBurst (this w1) = isBurst (this w)) by now rewrite E1.
  assert (Hn1 : refreshes w1 = S (refreshes w)).
  { rewrite E1. unfold refreshes. cbn [calls].
    rewrite refreshes_app. cbn. lia. }
  split; [| split; [exact Hn1 | split; [exact Hm1 | split]]].
  - exists c1. split; [exact S1 | now rewrite E1].
  - intros Hle.
    assert (E2 : handlers_mm e2 w1 = (inr tt, exec (call StopPropagation) w1)).
    { apply handlers_mm_throttled. lia. }
    apply (f_equal snd) in E2. cbn [snd] in E2.
    fold (exec (handlers_mm e2) w1) in E2. rewrite E2.
    repeat split.
    unfold refreshes, exec. cbn [call snd calls].
    rewrite refreshes_app. cbn. lia.
  - intros Hlt.
    destruct (handlers_mm_snap w1 cv e2 Hc1 Hr) as [c2 [S2 E2]]; [lia |].
    rewrite Hb1 in S2, E2.
    apply (f_equal snd) in E2. cbn [snd] in E2.
    fold (exec (handlers_mm e2) w1) in E2. rewrite E2.
    split; [| split; [| reflexivity]].
    + exists c2. split; [exact S2 | reflexivity].
    + unfold refreshes. cbn [calls]. rewrite refreshes_app. cbn. lia.
Qed.

Lemma move_throttle_witness :
  refreshes
    (exec (handlers_mm {| center := {| px := 250%float; py := 50%float |};
                          now := 1021 |})
       (exec (handlers_mm {| center := {| px := 50%float; py := 50%float |};
                             now := 1000 |})
          (world_of (Some square_canvas) burst_template)))
  = 2%nat /\
  x (data (this
       (exec (handlers_mm {| center := {| px := 250%float; py := 50%float |};
                             now := 1021 |})
          (exec (handlers_mm {| center := {| px := 50%float;
                                             py := 50%float |};
                                now := 1000 |})
             (world_of (Some square_canvas) burst_template)))))
  = 250%float.
Proof.
  destruct (move_throttle (world_of (Some square_canvas) burst_template)
              square_canvas
              {| center := {| px := 50%float; py := 50%float |};
                 now := 1000 |}
              {| center := {| px := 250%float; py := 50%float |};
                 now := 1021 |} eq_refl eq_refl)
    as [_ [H1 [_ [_ H2]]]].
  - cbn. lia.
  - destruct H2 as [[c2 [S2 D2]] [H2 _]]; [cbn; lia |].
    split; [exact (eq_trans H2 (f_equal S H1)) |].
    rewrite D2. vm_compute in S2. injection S2 as <-. reflexivity.
Defined.

(** ** What the handlers leave alone *)

Lemma handlers_mw_unready (SQUARE : Z) (w : World) (ev : WheelEvent) :
  canvas_ready (canvas w) = false -> handlers_mw SQUARE ev w = (inr tt, w).
Proof.
  intros H. unfold handlers_mw, bind, get. unfold canvas_ready in H.
  destruct (canvas w) as [cv |]; [| reflexivity]. now rewrite H.
Qed.

(** X11: the wheel handler never throws and only ever turns the template: the
    position, the distance, the throttle time and the canvas are as before,
    and it refreshes once on a ready canvas and not at all otherwise. *)
Theorem wheel_turns_only (SQUARE : Z) (w : World) (ev : WheelEvent) :
  let w' := exec (handlers_mw SQUARE ev) w in
  fst (handlers_mw SQUARE ev w) = inr tt /\
  x (data (this w')) = x (data (this w)) /\
  y (data (this w')) = y (data (this w)) /\
  distance (data (this w')) = distance (data (this w)) /\
  moveTime w' = moveTime w /\
  canvas w' = canvas w /\
  refreshes w'
  = (refreshes w + if canvas_ready (canvas w) then 1 else 0)%nat.
Proof.
  cbv zeta. unfold exec.
  destruct (canvas_ready (canvas w)) eqn:H.
  - destruct (canvas_ready_Some w H) as [cv [Hc Hr]].
    rewrite (handlers_mw_ready SQUARE w cv ev Hc Hr). cbn.
    repeat split. unfold refreshes. cbn [calls].
    rewrite !refreshes_app. destruct (ctrlKey ev); cbn; lia.
  - rewrite (handlers_mw_unready SQUARE w ev H). cbn. repeat split. lia.
Qed.

(** X12: a move and a turn can be handled in either order: the template and the
    throttle time end up the same. *)
Theorem move_wheel_commute (SQUARE : Z) (w : World) (cv : Canvas)
    (mv : MoveEvent) (wh : WheelEvent) :
  canvas w = Some cv -> ready cv = true ->
  let moved_then_turned :=
    exec (handlers_mw SQUARE wh) (exec (handlers_mm mv) w) in
  let turned_then_moved :=
    exec (handlers_mm mv) (exec (handlers_mw SQUARE wh) w) in
  this moved_then_turned = this turned_then_moved /\
  moveTime moved_then_turned = moveTime turned_then_moved.
Proof.
  intros Hc Hr. cbv zeta.
  assert (Ew : exec (handlers_mw SQUARE wh) w = snd (handlers_mw SQUARE wh w))
    by reflexivity.
  rewrite (handlers_mw_ready SQUARE w cv wh Hc Hr) in Ew. cbn [snd] in Ew.
  rewrite Ew. clear Ew.
  set (wt := {| canvas := canvas w; this := _; moveTime := moveTime w;
                calls := _ |}).
  assert (Hct : canvas wt = Some cv) by exact Hc.
  destruct (Z.leb_spec (now mv - moveTime w) 20) as [Hle | Hlt].
  - assert (E1 : exec (handlers_mm mv) w = exec (call StopPropagation) w).
    { unfold exec at 1. now rewrite (handlers_mm_throttled w mv Hle). }
    assert (E2 : exec (handlers_mm mv) wt = exec (call StopPropagation) wt).
    { unfold exec at 1. now rewrite (handlers_mm_throttled wt mv Hle). }
    rewrite E1, E2. unfold exec.
    erewrite handlers_mw_ready; [| exact Hc | exact Hr].
    split; reflexivity.
  - destruct (handlers_mm_pair w wt cv mv Hc Hct Hr eq_refl eq_refl Hlt Hlt)
      as [c [g [Hg [E1 E2]]]].
    apply (f_equal snd) in E1, E2. cbn [snd] in E1, E2.
    fold (exec (handlers_mm mv) w) in E1.
    fold (exec (handlers_mm mv) wt) in E2.
    rewrite E1, E2. unfold exec.
    erewrite handlers_mw_ready; [| exact Hc | exact Hr].
    cbn [snd this moveTime]. split; [| reflexivity].
    destruct Hg as [-> | [d ->]]; reflexivity.
Qed.

Lemma move_wheel_commute_witness :
  this (exec (handlers_mw 1 {| ctrlKey := false; shiftKey := true;
                               deltaY := 3%float |})
          (exec (handlers_mm {| center := {| px := 50%float; py := 50%float |};
                                now := 1000 |})
             (world_of (Some crowded_canvas) burst_template)))
  = this (exec (handlers_mm {| center := {| px := 50%float; py := 50%float |};
                               now := 1000 |})
            (exec (handlers_mw 1 {| ctrlKey := false; shiftKey := true;
                                    deltaY := 3%float |})
               (world_of (Some crowded_canvas) burst_template))).
Proof.
  apply (move_wheel_commute 1 (world_of (Some crowded_canvas) burst_template)
           crowded_canvas
           {| center := {| px := 50%float; py := 50%float |}; now := 1000 |}
           {| ctrlKey := false; shiftKey := true; deltaY := 3%float |}
           eq_refl eq_refl).
Defined.

Lemma deliver_keeps (SQUARE : Z) (l : Layer) (i : Input) (w : World) :
  kept (exec (deliver SQUARE l i) w) = kept w.
Proof.
  unfold exec. destruct (canvas_ready (canvas w)) eqn:H.
  - destruct (canvas_ready_Some w H) as [cv [Hc Hr]].
    destruct i as [e | | | e]; cbn [deliver].
    + destruct (Z.leb_spec (now e - moveTime w) 20) as [Hle | Hlt].
      * now rewrite (handlers_mm_throttled w e Hle).
      * destruct (handlers_mm_pair w w cv e Hc Hc Hr eq_refl eq_refl Hlt Hlt)
          as [c [g [Hg [E _]]]].
        rewrite E. destruct Hg as [-> | [d ->]]; reflexivity.
    + now rewrite (handlers_lc_ready w cv l Hc Hr).
    + now rewrite (handlers_rc_ready w cv l Hc Hr).
    + now rewrite (handlers_mw_ready SQUARE w cv e Hc Hr).
  - destruct i as [e | | | e]; cbn [deliver].
    + destruct (Z.leb_spec (now e - moveTime w) 20) as [Hle | Hlt].
      * now rewrite (handlers_mm_throttled w e Hle).
      * now rewrite (handlers_mm_throws w e H Hlt).
    + unfold handlers_lc, bind, get. now rewrite H.
    + unfold handlers_rc, bind, get. now rewrite H.
    + now rewrite (handlers_mw_unready SQUARE w e H).
Qed.

(** X13: whatever events are delivered to the four handlers, in whatever
    order and whether or not the canvas is ready, of the template they only
    ever change the position, the direction and the distance: the burst
    flag, the range and the shape, width, angle, colour and user of the data
    stay as they were. *)
Theorem preview_keeps (SQUARE : Z) (l : Layer) (inputs : list Input)
    (w : World) :
  kept (deliver_all SQUARE l inputs w) = kept w.
Proof.
  revert w. induction inputs as [| i inputs IH]; intros w.
  - reflexivity.
  - cbn [deliver_all]. rewrite IH. apply deliver_keeps.
Qed.

(** X14: a confirmation that follows an applied move of a template that is not a
    burst creates the template on the grid center of the pointer, with the
    rest of its data as before the move. *)
Theorem confirm_after_move (w : World) (cv : Canvas) (l : Layer)
    (mv : MoveEvent) :
  canvas w = Some cv -> ready cv = true ->
  isBurst (this w) = false ->
  20 < now mv - moveTime w ->
  let g := getCenter (grid cv) (px (center mv)) (py (center mv)) in
  last (calls (exec (handlers_lc l) (exec (handlers_mm mv) w))) Draw
  = CreateEmbeddedEntity "MeasuredTemplate"
      (with_position {| px := fst g; py := snd g |} (data (this w))).
Proof.
  intros Hc Hr Hb Hlt. cbv zeta.
  destruct (handlers_mm_applied w cv mv Hc Hr Hlt) as [c [td [E Hnb]]].
  destruct (Hnb Hb) as [-> ->].
  unfold exec at 2. rewrite E. cbn [snd]. unfold exec.
  erewrite handlers_lc_ready; [| exact Hc | exact Hr].
  cbn [snd calls this data]. apply last_last.
Qed.

Lemma confirm_after_move_witness :
  last (calls (exec (handlers_lc tokens_layer)
                 (exec (handlers_mm
                          {| center := {| px := 30%float; py := 70%float |};
                             now := 1000 |})
                    (world_of (Some square_canvas) blast_template)))) Draw
  = CreateEmbeddedEntity "MeasuredTemplate"
      (with_position {| px := 30%float; py := 70%float |}
         (data blast_template)).
Proof.
  apply (confirm_after_move (world_of (Some square_canvas) blast_template)
           square_canvas tokens_layer
           {| center := {| px := 30%float; py := 70%float |}; now := 1000 |}
           eq_refl eq_refl eq_refl).
  cbn. lia.
Defined.

(** ** The deployable sheet, continued *)

Lemma getData_actor_name (d : Sheet.SheetData) (st : Sheet.Store) :
  snd (Sheet.getData d st) (Sheet.actor d) "name"
  = st (Sheet.actor d) "name".
Proof.
  unfold Sheet.getData.
  destruct (Sheet.is_empty_string (st (Sheet.data d) "name")) eqn:E;
    cbn [snd]; [| reflexivity].
  unfold Sheet.assign.
  destruct (Nat.eqb_spec (Sheet.actor d) (Sheet.data d)) as [-> |];
    reflexivity.
Qed.

(** X15: [getData] never changes the actor's name, even when the actor object and
    the data object are one and the same; and the name it leaves on the data
    object is blank only if the actor's name is blank. *)
Theorem getData_keeps_actor_name (d : Sheet.SheetData) (st : Sheet.Store) :
  let st' := snd (Sheet.getData d st) in
  st' (Sheet.actor d) "name" = st (Sheet.actor d) "name" /\
  (st' (Sheet.data d) "name" = Sheet.VString "" ->
   st (Sheet.actor d) "name" = Sheet.VString "").
Proof.
  cbv zeta. split; [apply getData_actor_name |].
  unfold Sheet.getData.
  destruct (Sheet.is_empty_string (st (Sheet.data d) "name")) eqn:E;
    cbn [snd].
  - now rewrite assign_same.
  - intros H. apply is_empty_string_spec in H. congruence.
Qed.

Lemma getData_keeps_actor_name_witness :
  snd (Sheet.getData drone_sheet (drone_store "")) 1%nat "name"
  = Sheet.VString "Drone".
Proof.
  apply (getData_keeps_actor_name drone_sheet (drone_store "")).
Defined.

(** X16: rendering twice is the same as rendering once: a second [getData]
    returns the same object and changes no property of any object. *)
Theorem getData_idempotent (d : Sheet.SheetData) (st : Sheet.Store) :
  let once := Sheet.getData d st in
  let twice := Sheet.getData (fst once) (snd once) in
  fst twice = fst once /\ forall o f, snd twice o f = snd once o f.
Proof.
  cbv zeta.
  pose proof (getData_actor_name d st) as Ha.
  unfold Sheet.getData in *.
  destruct (Sheet.is_empty_string (st (Sheet.data d) "name")) eqn:E;
    cbn [fst snd] in *.
  - rewrite assign_same.
    destruct (Sheet.is_empty_string (st (Sheet.actor d) "name")) eqn:E';
      cbn [fst snd]; split; try reflexivity.
    intros o f. rewrite Ha. unfold Sheet.assign.
    now destruct (Nat.eqb o (Sheet.data d) && String.eqb f "name").
  - rewrite E. cbn [fst snd]. split; reflexivity.
Qed.

(** X17: [_updateObject] overwrites the submitted "token.name" with the submitted
    "name" before anything else sees the form: the parent's hook gets a form
    that differs from the submitted one at "token.name" only, and two
    submissions that differ at "token.name" only lead to the same update. *)
Theorem updateObject_token_name {R : Type}
    (_updateTokenImage : Sheet.Form -> Sheet.Form) (update : Sheet.Form -> R)
    (formData : Sheet.Form) :
  (exists fd,
     Sheet._updateObject _updateTokenImage update formData
     = update (_updateTokenImage fd) /\
     fd "token.name" = formData "name" /\
     forall k, k <> "token.name" -> fd k = formData k) /\
  (forall formData',
     (forall k, k <> "token.name" -> formData' k = formData k) ->
     Sheet._updateObject _updateTokenImage update formData'
     = Sheet._updateObject _updateTokenImage update formData).
Proof.
  split.
  - exists (Sheet.set_key formData "token.name" (formData "name")).
    split; [reflexivity |]. unfold Sheet.set_key. split; [reflexivity |].
    intros k Hk. now destruct (String.eqb_spec k "token.name").
  - intros fd' H. unfold Sheet._updateObject. do 2 f_equal.
    apply functional_extensionality. intros k. unfold Sheet.set_key.
    destruct (String.eqb_spec k "token.name") as [-> | Hk].
    + apply H. discriminate.
    + now apply H.
Qed.

Lemma updateObject_token_name_witness :
  Sheet._updateObject (fun fd => fd) (fun fd => fd "token.name")
    (fun k => if String.eqb k "token.name" then Sheet.VString "Old"
              else Sheet.VString "Drone")
  = Sheet._updateObject (fun fd => fd) (fun fd => fd "token.name")
      (fun _ => Sheet.VString "Drone").
Proof.
  apply (updateObject_token_name (fun fd => fd) (fun fd => fd "token.name")
           (fun _ => Sheet.VString "Drone")).
  intros k Hk. now destruct (String.eqb_spec k "token.name").
Defined.

(** ** Cancelling again *)

(** X18: the teardown is not guarded against being run again: a second cancel on
    a ready canvas makes the same six calls once more, and leaves the canvas
    and the template as the first one left them. *)
Theorem cancel_twice (w : World) (cv : Canvas) (l : Layer) :
  canvas w = Some cv -> ready cv = true ->
  let once := exec (handlers_rc l) w in
  let twice := exec (handlers_rc l) once in
  canvas twice = canvas once /\
  this twice = this w /\
  calls twice = (calls w ++ teardown_calls l ++ teardown_calls l)%list.
Proof.
  intros Hc Hr. cbv zeta.
  assert (E1 : exec (handlers_rc l) w =
               {| canvas := Some (with_activeLayer (Some l)
                                    (with_onwheel None
                                       (with_oncontextmenu None cv)));
                  this := this w; moveTime := moveTime w;
                  calls := (calls w ++ teardown_calls l)%list |}).
  { unfold exec. now rewrite (handlers_rc_ready w cv l Hc Hr). }
  rewrite E1. unfold exec.
  erewrite handlers_rc_ready; [| reflexivity | exact Hr].
  cbn [snd canvas this calls]. repeat split.
  now rewrite <- app_assoc.
Qed.

Lemma cancel_twice_witness :
  calls (exec (handlers_rc tokens_layer)
           (exec (handlers_rc tokens_layer)
              (world_of (Some square_canvas) burst_template)))
  = (teardown_calls tokens_layer ++ teardown_calls tokens_layer)%list.
Proof.
  apply (cancel_twice (world_of (Some square_canvas) burst_template)
           square_canvas tokens_layer eq_refl eq_refl).
Defined.
